(** * ftptop: a verification model of [utils/ftptop.c]

    [ftptop] samples the ProFTPD scoreboard and paints a [top]-like table
    with ncurses.  This development embeds the C program shallowly: the
    file-scope variables become one record, [exit] becomes a result
    constructor, everything the program writes (stdout, stderr, curses
    calls) is appended to an event log, and what the program reads from
    outside (getopt results, scoreboard entries, key presses, allocator
    and [stat] results) is passed in explicitly.  The program is the one
    built with [HAVE_NCURSES_H]; signal delivery is asynchronous and is
    not part of the model (only the installation of the handlers is
    logged). *)

From Stdlib Require Import ZArith Lia Bool Ascii String List.
From Stdlib Require Import DecimalString DecimalPos.
From Stdlib Require Import Permutation.
From stdpp Require Import base list strings.

Local Open Scope string_scope.
Local Open Scope Z_scope.

(** ** C integers *)

Module CInt.

(** [unsigned int] arithmetic is arithmetic modulo 2^32. *)
Definition uint32 (z : Z) : Z := z mod 2 ^ 32.

Definition INT_MIN : Z := - 2 ^ 31.
Definition INT_MAX : Z := 2 ^ 31 - 1.
Definition LONG_MIN : Z := - 2 ^ 63.
Definition LONG_MAX : Z := 2 ^ 63 - 1.

(** Conversion of an out-of-range value to [int] (two's complement). *)
Definition to_int (z : Z) : Z := (z + 2 ^ 31) mod 2 ^ 32 - 2 ^ 31.

Definition in_int (z : Z) : Prop := INT_MIN <= z <= INT_MAX.

(** [!x] and truth of a C scalar. *)
Definition is_zero (z : Z) : bool := z =? 0.

End CInt.
Export CInt.

(** ** C strings

    A C string is modelled by the characters before its terminating NUL. *)

Module CString.

Definition newline : string := String (ascii_of_nat 10) EmptyString.

(** [strlen] *)
Definition strlen (s : string) : Z := Z.of_nat (String.length s).

(** The first [n] characters of [s] (all of [s] when it is shorter). *)
Fixpoint strtake (n : nat) (s : string) : string :=
  match n, s with
  | O, _ => EmptyString
  | S _, EmptyString => EmptyString
  | S n', String c s' => String c (strtake n' s')
  end.

Fixpoint spaces (n : nat) : string :=
  match n with
  | O => EmptyString
  | S n' => String " " (spaces n')
  end.

(** [strstr(haystack, needle)]: the suffix of [haystack] that starts at
    the first occurrence of [needle], or NULL ([None]). *)
Fixpoint strstr (haystack needle : string) : option string :=
  if String.prefix needle haystack then Some haystack
  else match haystack with
       | EmptyString => None
       | String _ rest => strstr rest needle
       end.

(** A C pointer used as a condition. *)
Definition non_null {A} (p : option A) : bool :=
  match p with Some _ => true | None => false end.

(** [needle] occurs somewhere in [s]. *)
Definition occurs_in (needle s : string) : Prop :=
  exists before after, s = before ++ needle ++ after.

End CString.
Export CString.

(** ** The libc functions the program calls *)

Module Libc.

Definition code (c : ascii) : Z := Z.of_nat (nat_of_ascii c).

Definition isdigit (c : ascii) : bool := (48 <=? code c) && (code c <=? 57).

(** [isspace] in the C locale: space, and the controls 9 to 13. *)
Definition isspace (c : ascii) : bool :=
  (code c =? 32) || ((9 <=? code c) && (code c <=? 13)).

Definition digit_val (c : ascii) : Z := code c - 48.

(** [tolower] in the C locale, on an [int]. *)
Definition tolower (c : Z) : Z :=
  if (65 <=? c) && (c <=? 90) then c + 32 else c.

Fixpoint skip_space (s : string) : string :=
  match s with
  | String c rest => if isspace c then skip_space rest else s
  | EmptyString => EmptyString
  end.

(** The value of the longest run of decimal digits at the head of [s],
    continuing the value [acc] read so far. *)
Fixpoint digits_acc (s : string) (acc : Z) : Z :=
  match s with
  | String c rest =>
      if isdigit c then digits_acc rest (acc * 10 + digit_val c) else acc
  | EmptyString => acc
  end.

Definition clamp (lo hi z : Z) : Z := Z.max lo (Z.min hi z).

(** [strtol(s, NULL, 10)]: white space, an optional sign, digits; the
    result saturates at the bounds of [long].  When no digit follows, no
    conversion is performed and the result is 0. *)
Definition strtol10 (s : string) : Z :=
  let s := skip_space s in
  clamp LONG_MIN LONG_MAX
    match s with
    | String c rest =>
        if Ascii.eqb c "-" then - digits_acc rest 0
        else if Ascii.eqb c "+" then digits_acc rest 0
        else digits_acc s 0
    | EmptyString => 0
    end.

(** [atoi(s)] is [(int) strtol(s, NULL, 10)].  (ISO C leaves [atoi]
    undefined when the value does not fit an [int]; this is what the GNU C
    library computes.) *)
Definition atoi (s : string) : Z := to_int (strtol10 s).

(** Decimal rendering of an integer, as [%d] prints it. *)
Definition dec (z : Z) : string := NilEmpty.string_of_int (Z.to_int z).

(** *** A [printf] for the conversions the program uses *)

Inductive varg :=
| VInt (z : Z)
| VStr (s : string).

(** Pad [body] with blanks up to the field width; [-] pads on the right. *)
Definition pad (ljust : bool) (width : nat) (body : string) : string :=
  let fill := spaces (width - String.length body) in
  if ljust then body ++ fill else fill ++ body.

Definition precise (prec : option nat) (s : string) : string :=
  match prec with
  | Some p => strtake p s
  | None => s
  end.

(** One conversion: the text it produces and the arguments that remain.  A
    conversion whose argument is missing or of the wrong kind is undefined
    in C; here it prints nothing. *)
Definition convert (ljust : bool) (width : nat) (prec : option nat)
    (conv : ascii) (args : list varg) : string * list varg :=
  if Ascii.eqb conv "%" then ("%", args)
  else match args with
       | VInt z :: rest =>
           if Ascii.eqb conv "d" then (pad ljust width (dec (to_int z)), rest)
           else if Ascii.eqb conv "u" then (pad ljust width (dec (uint32 z)), rest)
           else (EmptyString, args)
       | VStr s :: rest =>
           if Ascii.eqb conv "s" then (pad ljust width (precise prec s), rest)
           else (EmptyString, args)
       | [] => (EmptyString, args)
       end.

(** Where the scan of the format string stands. *)
Inductive pstate :=
| Plain
| Flags (ljust : bool)
| Width (ljust : bool) (w : nat)
| Prec (ljust : bool) (w : nat) (p : nat).

Definition digit_nat (c : ascii) : nat := Z.to_nat (digit_val c).

Fixpoint vformat (ps : pstate) (fmt : string) (args : list varg) : string :=
  match fmt with
  | EmptyString => EmptyString
  | String c rest =>
      let finish_conv ljust w prec :=
        let '(text, args') := convert ljust w prec c args in
        text ++ vformat Plain rest args' in
      match ps with
      | Plain =>
          if Ascii.eqb c "%" then vformat (Flags false) rest args
          else String c (vformat Plain rest args)
      | Flags ljust =>
          if Ascii.eqb c "-" then vformat (Flags true) rest args
          else if isdigit c then vformat (Width ljust (digit_nat c)) rest args
          else if Ascii.eqb c "." then vformat (Prec ljust 0 0) rest args
          else finish_conv ljust 0%nat None
      | Width ljust w =>
          if isdigit c then vformat (Width ljust (10 * w + digit_nat c)) rest args
          else if Ascii.eqb c "." then vformat (Prec ljust w 0) rest args
          else finish_conv ljust w None
      | Prec ljust w p =>
          if isdigit c then vformat (Prec ljust w (10 * p + digit_nat c)) rest args
          else finish_conv ljust w (Some p)
      end
  end.

Definition sprintf (fmt : string) (args : list varg) : string :=
  vformat Plain fmt args.

(** [snprintf(buf, size, fmt, ...)] stores at most [size - 1] characters. *)
Definition snprintf (size : nat) (fmt : string) (args : list varg) : string :=
  strtake (size - 1) (sprintf fmt args).

End Libc.
Export Libc.

(** ** The program *)

Module Ftptop.

(** *** Declarations the program takes from [utils.h] and [ncurses.h] *)

(** The error codes of [util_open_scoreboard].  [utils.h] is not among the
    sources at hand, so the three codes are parameters of the model. *)
Class utils_h := {
  UTIL_SCORE_ERR_BAD_MAGIC : Z;
  UTIL_SCORE_ERR_OLDER_VERSION : Z;
  UTIL_SCORE_ERR_NEWER_VERSION : Z
}.

(** The fields of [pr_scoreboard_entry_t] that [ftptop] reads. *)
Record pr_scoreboard_entry_t := {
  sce_pid : Z;
  sce_user : string;
  sce_client_addr : string;
  sce_server_addr : string;
  sce_cmd : string
}.

(** ncurses: [ERR] is -1 and [OK] is 0. *)
Definition ERR : Z := -1.
Definition OK : Z := 0.

(** ncurses [halfdelay(tenths)]: "The value of tenths must be a number
    between 1 and 255"; outside that range the call fails with [ERR] and
    changes nothing (curs_inopts(3X)). *)
Definition halfdelay_rc (tenths : Z) : Z :=
  if (1 <=? tenths) && (tenths <=? 255) then OK else ERR.

Inductive attr := A_BOLD | A_REVERSE.

(** *** What the process does to the outside, in program order *)

Inductive event :=
| Stdout (text : string)
| Stderr (text : string)
| Signal (signo : string)
| Initscr
| Cbreak
| Noecho
| CursSet (visibility : Z)
| Halfdelay (tenths : Z)
| Getch
| Wclear
| Move (y x : Z)
| Attron (a : attr)
| Attroff (a : attr)
| Printw (text : string)
| Wrefresh
| Endwin
| UtilCloseScoreboard.

(** *** The file-scope variables *)

Definition program : string := "ftptop".
Definition FTPTOP_VERSION : string := "ftptop/0.8.2".

Definition FTPTOP_DISPLAY_FORMAT : string :=
  "%-5d %s %-.10s %-.7s %s 0 %-.20s" ++ newline.

Definition FTPTOP_SHOW_DOWNLOAD : Z := 0x0001.
Definition FTPTOP_SHOW_UPLOAD : Z := 0x0002.
Definition FTPTOP_SHOW_IDLE : Z := 0x0004.
Definition FTPTOP_SHOW_ALL : Z :=
  Z.lor (Z.lor FTPTOP_SHOW_DOWNLOAD FTPTOP_SHOW_UPLOAD) FTPTOP_SHOW_IDLE.

Definition chunklen : Z := 3.

(** [ftp_sessions] is [None] for NULL, otherwise the array of row
    pointers; a slot is [None] while it holds no row.  [scoreboard_file]
    is the path kept by [util_set_scoreboard]; [log] is the event log. *)
Record process := {
  delay : Z;
  display_session : Z;
  ftp_nsessions : Z;
  ftp_nuploads : Z;
  ftp_ndownloads : Z;
  ftp_nidles : Z;
  ftp_sessions : option (list (option string));
  scoreboard_file : string;
  log : list event
}.

Definition set_delay (v : Z) (p : process) : process :=
  {| delay := v; display_session := display_session p;
     ftp_nsessions := ftp_nsessions p; ftp_nuploads := ftp_nuploads p;
     ftp_ndownloads := ftp_ndownloads p; ftp_nidles := ftp_nidles p;
     ftp_sessions := ftp_sessions p; scoreboard_file := scoreboard_file p;
     log := log p |}.

Definition set_display_session (v : Z) (p : process) : process :=
  {| delay := delay p; display_session := v;
     ftp_nsessions := ftp_nsessions p; ftp_nuploads := ftp_nuploads p;
     ftp_ndownloads := ftp_ndownloads p; ftp_nidles := ftp_nidles p;
     ftp_sessions := ftp_sessions p; scoreboard_file := scoreboard_file p;
     log := log p |}.

Definition set_ftp_nsessions (v : Z) (p : process) : process :=
  {| delay := delay p; display_session := display_session p;
     ftp_nsessions := v; ftp_nuploads := ftp_nuploads p;
     ftp_ndownloads := ftp_ndownloads p; ftp_nidles := ftp_nidles p;
     ftp_sessions := ftp_sessions p; scoreboard_file := scoreboard_file p;
     log := log p |}.

Definition set_ftp_nuploads (v : Z) (p : process) : process :=
  {| delay := delay p; display_session := display_session p;
     ftp_nsessions := ftp_nsessions p; ftp_nuploads := v;
     ftp_ndownloads := ftp_ndownloads p; ftp_nidles := ftp_nidles p;
     ftp_sessions := ftp_sessions p; scoreboard_file := scoreboard_file p;
     log := log p |}.

Definition set_ftp_ndownloads (v : Z) (p : process) : process :=
  {| delay := delay p; display_session := display_session p;
     ftp_nsessions := ftp_nsessions p; ftp_nuploads := ftp_nuploads p;
     ftp_ndownloads := v; ftp_nidles := ftp_nidles p;
     ftp_sessions := ftp_sessions p; scoreboard_file := scoreboard_file p;
     log := log p |}.

Definition set_ftp_nidles (v : Z) (p : process) : process :=
  {| delay := delay p; display_session := display_session p;
     ftp_nsessions := ftp_nsessions p; ftp_nuploads := ftp_nuploads p;
     ftp_ndownloads := ftp_ndownloads p; ftp_nidles := v;
     ftp_sessions := ftp_sessions p; scoreboard_file := scoreboard_file p;
     log := log p |}.

Definition set_ftp_sessions (v : option (list (option string)))
    (p : process) : process :=
  {| delay := delay p; display_session := display_session p;
     ftp_nsessions := ftp_nsessions p; ftp_nuploads := ftp_nuploads p;
     ftp_ndownloads := ftp_ndownloads p; ftp_nidles := ftp_nidles p;
     ftp_sessions := v; scoreboard_file := scoreboard_file p;
     log := log p |}.

Definition set_scoreboard_file (v : string) (p : process) : process :=
  {| delay := delay p; display_session := display_session p;
     ftp_nsessions := ftp_nsessions p; ftp_nuploads := ftp_nuploads p;
     ftp_ndownloads := ftp_ndownloads p; ftp_nidles := ftp_nidles p;
     ftp_sessions := ftp_sessions p; scoreboard_file := v;
     log := log p |}.

Definition set_log (v : list event) (p : process) : process :=
  {| delay := delay p; display_session := display_session p;
     ftp_nsessions := ftp_nsessions p; ftp_nuploads := ftp_nuploads p;
     ftp_ndownloads := ftp_ndownloads p; ftp_nidles := ftp_nidles p;
     ftp_sessions := ftp_sessions p; scoreboard_file := scoreboard_file p;
     log := v |}.

(** The variables as their initialisers leave them.  The default
    scoreboard path is fixed when ProFTPD is configured. *)
Definition startup (default_scoreboard : string) : process :=
  {| delay := 2; display_session := FTPTOP_SHOW_ALL;
     ftp_nsessions := 0; ftp_nuploads := 0; ftp_ndownloads := 0;
     ftp_nidles := 0; ftp_sessions := None;
     scoreboard_file := default_scoreboard; log := [] |}.

(** *** Commands: state passing with [exit]

    A command either returns a value, or the process has called
    [exit(status)], or it has left defined behaviour (a read or write
    outside the row array). *)

Inductive result (A : Type) :=
| Ret (a : A) (p : process)
| Exit (status : Z) (p : process)
| Fault (p : process).
Arguments Ret {A} a p.
Arguments Exit {A} status p.
Arguments Fault {A} p.

Definition M (A : Type) : Type := process -> result A.

#[export] Instance M_ret : MRet M := fun A a p => Ret a p.

#[export] Instance M_bind : MBind M := fun A B k m p =>
  match m p with
  | Ret a p' => k a p'
  | Exit status p' => Exit status p'
  | Fault p' => Fault p'
  end.

Definition exit {A} (status : Z) : M A := fun p => Exit status p.
Definition fault {A} : M A := fun p => Fault p.
Definition get {A} (field : process -> A) : M A := fun p => Ret (field p) p.
Definition modify (f : process -> process) : M unit := fun p => Ret tt (f p).
Definition emit (e : event) : M unit :=
  modify (fun p => set_log (log p ++ [e]) p).

Definition fprintf_stdout (fmt : string) (args : list varg) : M unit :=
  emit (Stdout (sprintf fmt args)).
Definition fprintf_stderr (fmt : string) (args : list varg) : M unit :=
  emit (Stderr (sprintf fmt args)).
Definition printw (fmt : string) (args : list varg) : M unit :=
  emit (Printw (sprintf fmt args)).

(** *** What the process reads from the outside *)

(** One call of [getopt] that did not return -1: the value it returns
    (['?'] for an option character that is not in ["Dd:f:hIiUV"] and for a
    [-d] or [-f] without its argument), [optarg], and the diagnostic that
    [getopt] writes to stderr when it returns ['?'] (it names [argv[0]] and
    the offending character, in the words of the C library); the text is
    not used with any other return value. *)
Record getopt_result := {
  optc : ascii;
  optarg : string;
  diagnostic : string
}.

(** One poll of the scoreboard: whether the allocator satisfies the
    requests made during the poll, the value of [util_open_scoreboard],
    the text of [strerror(errno)], the entries that
    [util_scoreboard_read_entry] hands out before it returns NULL, and the
    text of [ctime(&now)]. *)
Record poll_env := {
  memory_ok : bool;
  open_res : Z;
  open_strerror : string;
  entries : list pr_scoreboard_entry_t;
  ctime_now : string
}.

(** One turn of the loop in [main]: the key that [getch] returns when it
    is called ([ERR] when none arrives in time) and the poll that follows. *)
Record turn_env := {
  key : Z;
  poll : poll_env
}.

(** *** [clear_counters] *)

Definition clear_counters : M unit :=
  sessions ← get ftp_sessions;
  n ← get ftp_nsessions;
  (if non_null sessions && negb (is_zero n)
   then modify (set_ftp_sessions None)
   else mret tt);;
  modify (set_ftp_nsessions 0);;
  modify (set_ftp_nuploads 0);;
  modify (set_ftp_ndownloads 0);;
  modify (set_ftp_nidles 0).

(** *** [finish] *)

Definition finish (signo : Z) : M unit :=
  emit Endwin;;
  exit 0.

(** *** [show_version] and [usage] *)

Definition show_version : M unit :=
  fprintf_stdout (FTPTOP_VERSION ++ newline) [];;
  exit 0.

Definition tab : string := String (ascii_of_nat 9) EmptyString.

Definition usage : M unit :=
  fprintf_stdout ("usage: ftptop [options]" ++ newline) [];;
  fprintf_stdout (tab ++ "-D      " ++ tab ++ tab ++ "show only downloading sessions" ++ newline) [];;
  fprintf_stdout (tab ++ "-d <num>" ++ tab ++ tab ++ "refresh delay in seconds" ++ newline) [];;
  fprintf_stdout (tab ++ "-f      " ++ tab ++ tab ++ "configures the ScoreboardFile to use" ++ newline) [];;
  fprintf_stdout (tab ++ "-h      " ++ tab ++ tab ++ "displays this message" ++ newline) [];;
  fprintf_stdout (tab ++ "-i      " ++ tab ++ tab ++ "ignores idle connections when listing" ++ newline) [];;
  fprintf_stdout (tab ++ "-U      " ++ tab ++ tab ++ "show only uploading sessions" ++ newline) [];;
  fprintf_stdout (tab ++ "-V      " ++ tab ++ tab ++ "shows version" ++ newline ++ newline) [];;
  exit 0.

(** *** [process_opts] *)

(** [util_set_scoreboard] keeps the path for the later open. *)
Definition util_set_scoreboard (path : string) : M unit :=
  modify (set_scoreboard_file path).

(** The body of the [switch] for one option. *)
Definition process_opt (o : getopt_result) : M unit :=
  match optc o with
  | "D"%char =>
      modify (set_display_session 0);;
      ds ← get display_session;
      modify (set_display_session (Z.lor ds FTPTOP_SHOW_DOWNLOAD))
  | "d"%char =>
      modify (set_delay (atoi (optarg o)));;
      d ← get delay;
      if d <? 0 then
        fprintf_stderr ("%s: negative delay illegal: %d" ++ newline)
          [VStr program; VInt d];;
        exit 1
      else mret tt
  | "f"%char => util_set_scoreboard (optarg o)
  | "h"%char => usage
  | "I"%char =>
      modify (set_display_session 0);;
      ds ← get display_session;
      modify (set_display_session (Z.lor ds FTPTOP_SHOW_IDLE))
  | "i"%char =>
      ds ← get display_session;
      modify (set_display_session (Z.land ds (uint32 (Z.lnot FTPTOP_SHOW_IDLE))))
  | "U"%char =>
      modify (set_display_session 0);;
      ds ← get display_session;
      modify (set_display_session (Z.lor ds FTPTOP_SHOW_UPLOAD))
  | "V"%char => show_version
  | "?"%char => mret tt
  | _ => mret tt
  end.

(** [getopt], on the call that finds [next]: the program never clears
    [opterr] and its option string does not begin with [':'], so an option
    that [getopt] rejects is reported on stderr by [getopt] itself before
    ['?'] is returned. *)
Definition getopt (next : getopt_result) : M getopt_result :=
  (if Ascii.eqb (optc next) "?" then emit (Stderr (diagnostic next))
   else mret tt);;
  mret next.

(** The [while] loop over the calls of [getopt], until it returns -1. *)
Fixpoint process_opts (opts : list getopt_result) : M unit :=
  match opts with
  | [] => mret tt
  | next :: rest => o ← getopt next; process_opt o;; process_opts rest
  end.

(** *** [scoreboard_open] and [scoreboard_close] *)

Definition scoreboard_close : M unit := emit UtilCloseScoreboard.

Definition scoreboard_open `{utils_h} (env : poll_env) : M Z :=
  let res := open_res env in
  if res <? 0 then
    if res =? -1 then
      fprintf_stderr ("%s: unable to open scoreboard: %s" ++ newline)
        [VStr program; VStr (open_strerror env)];;
      mret res
    else if res =? UTIL_SCORE_ERR_BAD_MAGIC then
      fprintf_stderr ("%s: scoreboard is corrupted or old" ++ newline)
        [VStr program];;
      mret res
    else if res =? UTIL_SCORE_ERR_OLDER_VERSION then
      fprintf_stderr ("%s: scoreboard is too old" ++ newline) [VStr program];;
      mret res
    else if res =? UTIL_SCORE_ERR_NEWER_VERSION then
      fprintf_stderr ("%s: scoreboard is too new" ++ newline) [VStr program];;
      mret res
    else mret 0
  else mret 0.

(** *** [read_scoreboard] *)

(** [calloc] of an array of [n] row pointers: [n] NULL pointers, or NULL. *)
Definition calloc_array (env : poll_env) (n : Z) : option (list (option string)) :=
  if memory_ok env then Some (replicate (Z.to_nat n) None) else None.

(** [realloc] of the array to [n] row pointers: the old slots are kept;
    NULL when the allocator fails. *)
Definition realloc_array (env : poll_env) (array : option (list (option string)))
    (n : Z) : option (list (option string)) :=
  if memory_ok env then Some (resize (Z.to_nat n) None (default [] array))
  else None.

(** [calloc(1, strlen(buf) + 1)] followed by the [strncpy] of [buf]. *)
Definition calloc_copy (env : poll_env) (buf : string) : option string :=
  if memory_ok env then Some buf else None.

(** [display_session & flag] as a condition. *)
Definition displayed (flag : Z) : M bool :=
  ds ← get display_session;
  mret (negb (is_zero (Z.land ds flag))).

(** "Determine the status symbol to display": the [if] chain on
    [score->sce_cmd].  The result is the status and whether the chain left
    the loop body through [continue]. *)
Definition determine_status (score : pr_scoreboard_entry_t) : M (string * bool) :=
  let status := "A" in
  if non_null (strstr (sce_cmd score) "(idle)") then
    let status := "I" in
    n ← get ftp_nidles;
    modify (set_ftp_nidles (uint32 (n + 1)));;
    show ← displayed FTPTOP_SHOW_IDLE;
    if negb show then mret (status, true) else mret (status, false)
  else if non_null (strstr (sce_cmd score) "RETR") then
    let status := "D" in
    n ← get ftp_ndownloads;
    modify (set_ftp_ndownloads (uint32 (n + 1)));;
    show ← displayed FTPTOP_SHOW_DOWNLOAD;
    if negb show then mret (status, true) else mret (status, false)
  else if non_null (strstr (sce_cmd score) "STOR")
          || non_null (strstr (sce_cmd score) "APPE")
          || non_null (strstr (sce_cmd score) "STOU") then
    let status := "U" in
    n ← get ftp_nuploads;
    modify (set_ftp_nuploads (uint32 (n + 1)));;
    show ← displayed FTPTOP_SHOW_UPLOAD;
    if negb show then mret (status, true) else mret (status, false)
  else if non_null (strstr (sce_cmd score) "LIST")
          || non_null (strstr (sce_cmd score) "NLST") then
    mret ("L", false)
  else mret (status, false).

(** The text that [snprintf] leaves in [buf] for one entry. *)
Definition format_session (status : string) (score : pr_scoreboard_entry_t) : string :=
  snprintf 1024 FTPTOP_DISPLAY_FORMAT
    [VInt (sce_pid score); VStr status; VStr (sce_user score);
     VStr (sce_client_addr score); VStr (sce_server_addr score);
     VStr (sce_cmd score)].

(** The rest of the loop body: format the row, grow the array when it is
    full, and store a copy of the row at index [ftp_nsessions]. *)
Definition store_session (env : poll_env) (status : string)
    (score : pr_scoreboard_entry_t) : M unit :=
  let buf := format_session status score in
  n ← get ftp_nsessions;
  (if negb (is_zero n) && (n mod chunklen =? 0) then
     sessions ← get ftp_sessions;
     let grown := realloc_array env sessions (uint32 (n + chunklen)) in
     modify (set_ftp_sessions grown);;
     if non_null grown then mret tt else exit 1
   else mret tt);;
  sessions ← get ftp_sessions;
  n ← get ftp_nsessions;
  match sessions with
  | Some array =>
      if (Z.to_nat n <? length array)%nat then
        let row := calloc_copy env buf in
        modify (set_ftp_sessions (Some (<[Z.to_nat n := row]> array)));;
        (if non_null row then mret tt else exit 1);;
        modify (set_ftp_nsessions (uint32 (n + 1)))
      else fault
  | None => fault
  end.

(** One turn of the [while] loop. *)
Definition read_entry (env : poll_env) (score : pr_scoreboard_entry_t) : M unit :=
  determined ← determine_status score;
  let status : string := fst determined in
  let continue : bool := snd determined in
  if continue then mret tt else store_session env status score.

Fixpoint read_entries (env : poll_env) (scores : list pr_scoreboard_entry_t) : M unit :=
  match scores with
  | [] => mret tt
  | score :: rest => read_entry env score;; read_entries env rest
  end.

Definition read_scoreboard `{utils_h} (env : poll_env) : M unit :=
  let array := calloc_array env chunklen in
  modify (set_ftp_sessions array);;
  (if non_null array then mret tt else exit 1);;
  res ← scoreboard_open env;
  if res <? 0 then mret tt
  else
    read_entries env (entries env);;
    scoreboard_close.

(** *** [show_sessions] *)

(** The [for] loop that writes out [ftp_sessions[i]] for [i] from [i] on,
    [count] times. *)
Fixpoint print_sessions (i count : nat) : M unit :=
  match count with
  | O => mret tt
  | S count' =>
      sessions ← get ftp_sessions;
      match sessions ≫= (fun array => array !! i) with
      | Some (Some row) => printw "%s" [VStr row];; print_sessions (S i) count'
      | _ => fault
      end
  end.

Definition summary_format : string :=
  "%u Total FTP Sessions: %u downloading, %u uploading, %u idle" ++ newline.

Definition column_header : string :=
  "PID   S USER     ADDR        SRVR    TIME COMMAND".

Definition show_sessions `{utils_h} (env : poll_env) : M unit :=
  clear_counters;;
  read_scoreboard env;;
  emit Wclear;;
  emit (Move 0 0);;
  emit (Attron A_BOLD);;
  printw (FTPTOP_VERSION ++ ": %s") [VStr (ctime_now env)];;
  nsessions ← get ftp_nsessions;
  ndownloads ← get ftp_ndownloads;
  nuploads ← get ftp_nuploads;
  nidles ← get ftp_nidles;
  printw summary_format
    [VInt nsessions; VInt ndownloads; VInt nuploads; VInt nidles];;
  emit (Attroff A_BOLD);;
  printw newline [];;
  emit (Attron A_REVERSE);;
  printw column_header [];;
  emit (Attroff A_REVERSE);;
  printw newline [];;
  sessions ← get ftp_sessions;
  (if non_null sessions && negb (is_zero nsessions)
   then print_sessions 0 (Z.to_nat nsessions)
   else mret tt);;
  emit Wrefresh.

(** *** [verify_scoreboard_file] and [main] *)

(** What [main] meets besides the polls: the options, the value of [stat]
    on the scoreboard path and the text of [strerror(errno)]. *)
Record main_env := {
  opts : list getopt_result;
  stat_res : Z;
  stat_strerror : string;
  first_poll : poll_env;
  turns : list turn_env
}.

Definition verify_scoreboard_file (env : main_env) : M unit :=
  if stat_res env <? 0 then
    path ← get scoreboard_file;
    fprintf_stderr ("%s: unable to stat '%s': %s" ++ newline)
      [VStr program; VStr path; VStr (stat_strerror env)];;
    exit 1
  else mret tt.

(** The code of the character ['q']. *)
Definition char_q : Z := 113.

(** The body of [for (;;)]. *)
Definition main_loop_turn `{utils_h} (env : turn_env) : M unit :=
  let c := -1 in
  d ← get delay;
  let tenths := to_int (d * 10) in
  emit (Halfdelay tenths);;
  c ← (if negb (halfdelay_rc tenths =? ERR)
       then emit Getch;; mret (key env)
       else mret c);
  (if negb (c =? -1) && (tolower c =? char_q) then finish 0 else mret tt);;
  show_sessions (poll env).

(** The endless loop, followed for the turns that [envs] describes. *)
Fixpoint main_loop `{utils_h} (envs : list turn_env) : M unit :=
  match envs with
  | [] => mret tt
  | env :: rest => main_loop_turn env;; main_loop rest
  end.

Definition main `{utils_h} (env : main_env) : M unit :=
  process_opts (opts env);;
  verify_scoreboard_file env;;
  emit (Signal "SIGINT");;
  emit (Signal "SIGTERM");;
  emit Initscr;;
  emit Cbreak;;
  emit Noecho;;
  emit (CursSet 0);;
  show_sessions (first_poll env);;
  main_loop (turns env).

End Ftptop.

(** ** The specification's vocabulary *)

Module Spec.
Import Ftptop.

(** The five status categories of the specification and their symbols. *)
Inductive category :=
| Authenticating
| Idle
| Download
| Upload
| Listing.

Definition symbol (c : category) : string :=
  match c with
  | Authenticating => "A"
  | Idle => "I"
  | Download => "D"
  | Upload => "U"
  | Listing => "L"
  end.

(** The ordered, first-match rules on the command label, in the
    specification's words. *)
Inductive first_match (label : string) : category -> Prop :=
| match_idle :
    occurs_in "(idle)" label ->
    first_match label Idle
| match_download :
    ~ occurs_in "(idle)" label ->
    occurs_in "RETR" label ->
    first_match label Download
| match_upload :
    ~ occurs_in "(idle)" label ->
    ~ occurs_in "RETR" label ->
    occurs_in "STOR" label \/ occurs_in "APPE" label \/ occurs_in "STOU" label ->
    first_match label Upload
| match_listing :
    ~ occurs_in "(idle)" label ->
    ~ occurs_in "RETR" label ->
    ~ (occurs_in "STOR" label \/ occurs_in "APPE" label \/ occurs_in "STOU" label) ->
    occurs_in "LIST" label \/ occurs_in "NLST" label ->
    first_match label Listing
| match_default :
    ~ occurs_in "(idle)" label ->
    ~ occurs_in "RETR" label ->
    ~ (occurs_in "STOR" label \/ occurs_in "APPE" label \/ occurs_in "STOU" label) ->
    ~ (occurs_in "LIST" label \/ occurs_in "NLST" label) ->
    first_match label Authenticating.

(** The display-filter bit that governs a category; listing and
    authenticating sessions have none and are always shown. *)
Definition filter_bit (c : category) : option Z :=
  match c with
  | Idle => Some FTPTOP_SHOW_IDLE
  | Download => Some FTPTOP_SHOW_DOWNLOAD
  | Upload => Some FTPTOP_SHOW_UPLOAD
  | Listing | Authenticating => None
  end.

Definition retained (filter : Z) (c : category) : bool :=
  match filter_bit c with
  | Some bit => negb (is_zero (Z.land filter bit))
  | None => true
  end.

(** Counting one session of category [c]: its counter goes up by one, in
    [unsigned int] arithmetic. *)
Definition count (c : category) (p : process) : process :=
  match c with
  | Idle => set_ftp_nidles (uint32 (ftp_nidles p + 1)) p
  | Download => set_ftp_ndownloads (uint32 (ftp_ndownloads p + 1)) p
  | Upload => set_ftp_nuploads (uint32 (ftp_nuploads p + 1)) p
  | Listing | Authenticating => p
  end.

(** The three per-category counters: idle, downloading, uploading. *)
Definition counters (p : process) : Z * Z * Z :=
  (ftp_nidles p, ftp_ndownloads p, ftp_nuploads p).

(** The filter that an option installs wholesale, for the three options
    that do so. *)
Definition exclusive_filter (c : ascii) : option Z :=
  if Ascii.eqb c "D" then Some FTPTOP_SHOW_DOWNLOAD
  else if Ascii.eqb c "I" then Some FTPTOP_SHOW_IDLE
  else if Ascii.eqb c "U" then Some FTPTOP_SHOW_UPLOAD
  else None.

Definition is_exclude_idle (o : getopt_result) : bool := Ascii.eqb (optc o) "i".

(** A filter with the Idle bit cleared. *)
Definition without_idle (filter : Z) : Z :=
  Z.land filter (uint32 (Z.lnot FTPTOP_SHOW_IDLE)).

(** An argument parses as an integer when, after leading white space and
    an optional sign, a decimal digit follows. *)
Definition starts_with_digit (s : string) : bool :=
  match s with
  | String c _ => isdigit c
  | EmptyString => false
  end.

Definition parses_as_integer (s : string) : bool :=
  match skip_space s with
  | String c rest =>
      if Ascii.eqb c "-" || Ascii.eqb c "+" then starts_with_digit rest
      else isdigit c
  | EmptyString => false
  end.

(** The diagnostic for a negative refresh delay. *)
Definition negative_delay_diagnostic (n : Z) : string :=
  "ftptop: negative delay illegal: " ++ dec n ++ newline.

(** The fixed layout of a row: the process id left-justified in 5
    columns, the status symbol, at most 10 characters of the user name, at
    most 7 of the client address, the server address, the placeholder
    column ["0"], at most 20 characters of the command label, single blanks
    in between and a newline at the end. *)
Definition row_layout (status : string) (score : pr_scoreboard_entry_t) : string :=
  pad true 5 (dec (sce_pid score)) ++ " " ++ status ++ " "
  ++ strtake 10 (sce_user score) ++ " "
  ++ strtake 7 (sce_client_addr score) ++ " "
  ++ sce_server_addr score ++ " " ++ "0" ++ " "
  ++ strtake 20 (sce_cmd score) ++ newline.

(** The category of a label, computed as the program does, with [strstr]. *)
Definition classify (label : string) : category :=
  if non_null (strstr label "(idle)") then Idle
  else if non_null (strstr label "RETR") then Download
  else if non_null (strstr label "STOR") || non_null (strstr label "APPE")
          || non_null (strstr label "STOU") then Upload
  else if non_null (strstr label "LIST") || non_null (strstr label "NLST")
       then Listing
  else Authenticating.

Definition category_eqb (a b : category) : bool :=
  match a, b with
  | Authenticating, Authenticating | Idle, Idle | Download, Download
  | Upload, Upload | Listing, Listing => true
  | _, _ => false
  end.

(** How many of [scores] fall in category [c]. *)
Definition tally (c : category) (scores : list pr_scoreboard_entry_t) : Z :=
  Z.of_nat (length (filter (fun s => category_eqb (classify (sce_cmd s)) c = true) scores)).

(** The entries that the display filter lets through, in scoreboard order. *)
Definition retained_entries (flt : Z) (scores : list pr_scoreboard_entry_t)
    : list pr_scoreboard_entry_t :=
  filter (fun s => retained flt (classify (sce_cmd s)) = true) scores.

(** The formatted rows of one poll. *)
Definition retained_rows (flt : Z) (scores : list pr_scoreboard_entry_t)
    : list string :=
  map (fun s => format_session (symbol (classify (sce_cmd s))) s)
      (retained_entries flt scores).

(** The row array has room: its length is the number of whole chunks that
    [n] rows need, and at least one chunk. *)
Definition capacity_ok (array : list (option string)) (n : Z) : Prop :=
  0 <= n /\
  Z.of_nat (length array) = chunklen * Z.max 1 ((n + chunklen - 1) / chunklen).

(** The counters hold values of type [unsigned int]. *)
Definition counters_in_range (p : process) : Prop :=
  0 <= ftp_nuploads p < 2 ^ 32 /\
  0 <= ftp_ndownloads p < 2 ^ 32 /\
  0 <= ftp_nidles p < 2 ^ 32.

(** The text of one frame. *)
Definition title_line (now : string) : string := FTPTOP_VERSION ++ ": " ++ now.

Definition summary_line (total downloading uploading idle : Z) : string :=
  dec total ++ " Total FTP Sessions: " ++ dec downloading ++ " downloading, "
  ++ dec uploading ++ " uploading, " ++ dec idle ++ " idle" ++ newline.

(** What [show_sessions] paints: the title with the time of day, the
    summary line in bold, a blank line, the column header in reverse
    video, and the rows. *)
Definition frame (now : string) (total downloading uploading idle : Z)
    (rows : list string) : list event :=
  [Wclear; Move 0 0; Attron A_BOLD; Printw (title_line now);
   Printw (summary_line total downloading uploading idle); Attroff A_BOLD;
   Printw newline; Attron A_REVERSE; Printw column_header;
   Attroff A_REVERSE; Printw newline]
  ++ map Printw rows ++ [Wrefresh].

(** The state in which [clear_counters] leaves the process. *)
Definition cleared (p : process) : process :=
  {| delay := delay p; display_session := display_session p;
     ftp_nsessions := 0; ftp_nuploads := 0; ftp_ndownloads := 0;
     ftp_nidles := 0;
     ftp_sessions := if non_null (ftp_sessions p) && negb (is_zero (ftp_nsessions p))
                     then None else ftp_sessions p;
     scoreboard_file := scoreboard_file p; log := log p |}.

(** Opening the scoreboard fails when [util_open_scoreboard] returns one
    of the four error codes. *)
Definition open_fails `{utils_h} (env : poll_env) : bool :=
  (open_res env <? 0)
  && ((open_res env =? -1)
      || (open_res env =? UTIL_SCORE_ERR_BAD_MAGIC)
      || (open_res env =? UTIL_SCORE_ERR_OLDER_VERSION)
      || (open_res env =? UTIL_SCORE_ERR_NEWER_VERSION)).

(** The diagnostic for each kind of failure. *)
Definition open_diagnostic `{utils_h} (env : poll_env) : string :=
  if open_res env =? -1 then
    "ftptop: unable to open scoreboard: " ++ open_strerror env ++ newline
  else if open_res env =? UTIL_SCORE_ERR_BAD_MAGIC then
    "ftptop: scoreboard is corrupted or old" ++ newline
  else if open_res env =? UTIL_SCORE_ERR_OLDER_VERSION then
    "ftptop: scoreboard is too old" ++ newline
  else "ftptop: scoreboard is too new" ++ newline.

(** The process as a command leaves it, whatever the outcome. *)
Definition final {A} (r : result A) : process :=
  match r with
  | Ret _ p => p
  | Exit _ p => p
  | Fault p => p
  end.

(** The option characters that the [switch] of [process_opts] acts upon. *)
Definition acted_upon (c : ascii) : bool :=
  existsb (Ascii.eqb c) ["D"; "d"; "f"; "h"; "I"; "i"; "U"; "V"]%char.

(** What [getopt] itself writes while it hands out one option, and over a
    whole run of the option parser: its diagnostic for every option that
    it rejects, nothing for the others. *)
Definition getopt_report (o : getopt_result) : list event :=
  if Ascii.eqb (optc o) "?" then [Stderr (diagnostic o)] else [].

Definition getopt_reports (opts : list getopt_result) : list event :=
  flat_map getopt_report opts.

(** The process when [getopt] has handed out [o]. *)
Definition reported (o : getopt_result) (p : process) : process :=
  set_log (log p ++ getopt_report o) p.

(** What [usage] writes to stdout. *)
Definition usage_text : list event :=
  [ Stdout ("usage: ftptop [options]" ++ newline);
    Stdout (tab ++ "-D      " ++ tab ++ tab ++ "show only downloading sessions" ++ newline);
    Stdout (tab ++ "-d <num>" ++ tab ++ tab ++ "refresh delay in seconds" ++ newline);
    Stdout (tab ++ "-f      " ++ tab ++ tab ++ "configures the ScoreboardFile to use" ++ newline);
    Stdout (tab ++ "-h      " ++ tab ++ tab ++ "displays this message" ++ newline);
    Stdout (tab ++ "-i      " ++ tab ++ tab ++ "ignores idle connections when listing" ++ newline);
    Stdout (tab ++ "-U      " ++ tab ++ tab ++ "show only uploading sessions" ++ newline);
    Stdout (tab ++ "-V      " ++ tab ++ tab ++ "shows version" ++ newline ++ newline) ].

(** What the polls keep between them: the row count, the three category
    counters and the row array. *)
Definition poll_state (p : process)
    : Z * (Z * Z * Z) * option (list (option string)) :=
  (ftp_nsessions p, counters p, ftp_sessions p).

(** The keys that end the program: 'q' and 'Q'. *)
Definition quit_key (k : Z) : bool := (k =? 113) || (k =? 81).

(** A poll that differs only in what [util_open_scoreboard] returns. *)
Definition with_open_res (res : Z) (env : poll_env) : poll_env :=
  {| memory_ok := memory_ok env; open_res := res;
     open_strerror := open_strerror env; entries := entries env;
     ctime_now := ctime_now env |}.

(** The diagnostic of [verify_scoreboard_file]. *)
Definition stat_diagnostic (path reason : string) : string :=
  "ftptop: unable to stat '" ++ path ++ "': " ++ reason ++ newline.

(** What [main] does between the options and the first frame. *)
Definition startup_calls : list event :=
  [Signal "SIGINT"; Signal "SIGTERM"; Initscr; Cbreak; Noecho; CursSet 0].

(** The number of slots of the row array that holds [n] rows: whole
    chunks, and at least one. *)
Definition capacity_for (n : Z) : Z :=
  chunklen * Z.max 1 ((n + chunklen - 1) / chunklen).

(** [shift l r]: the outcome [r], had the log started with [l]. *)
Definition shift {A} (l : list event) (r : result A) : result A :=
  match r with
  | Ret a q => Ret a (set_log (l ++ log q) q)
  | Exit status q => Exit status (set_log (l ++ log q) q)
  | Fault q => Fault (set_log (l ++ log q) q)
  end.

(** The run configuration: what the options set and the polls only read. *)
Definition config (p : process) : Z * Z * string :=
  (delay p, display_session p, scoreboard_file p).

(** A command is tame when it only ever appends to the log, without
    reading it, and leaves the run configuration alone. *)
Definition tame {A} (c : M A) : Prop :=
  (forall p l, c (set_log (l ++ log p) p) = shift l (c p)) /\
  (forall p, config (final (c p)) = config p).

(** A process with the configuration and the log of [p], and nothing left
    of earlier polls. *)
Definition base (p : process) : process :=
  {| delay := delay p; display_session := display_session p;
     ftp_nsessions := 0; ftp_nuploads := 0; ftp_ndownloads := 0;
     ftp_nidles := 0; ftp_sessions := None;
     scoreboard_file := scoreboard_file p; log := log p |}.

End Spec.

(** ** A sample run, for the concrete instances below *)

Module Scenario.
Import Ftptop.

(** Sample error codes: three distinct negative values. *)
Definition codes : utils_h :=
  {| UTIL_SCORE_ERR_BAD_MAGIC := -2;
     UTIL_SCORE_ERR_OLDER_VERSION := -3;
     UTIL_SCORE_ERR_NEWER_VERSION := -4 |}.

Definition session (pid : Z) (cmd : string) : pr_scoreboard_entry_t :=
  {| sce_pid := pid; sce_user := "administrator";
     sce_client_addr := "192.0.2.44"; sce_server_addr := "198.51.100.7";
     sce_cmd := cmd |}.

(** One idle, one downloading, one uploading and one listing session. *)
Definition snapshot : list pr_scoreboard_entry_t :=
  [ session 101 "(idle)"; session 102 "RETR pub/releases/proftpd.tar.gz";
    session 103 "STOR notes.txt"; session 104 "LIST" ].

Definition poll_of (res : Z) (scores : list pr_scoreboard_entry_t) : poll_env :=
  {| memory_ok := true; open_res := res;
     open_strerror := "No such file or directory";
     entries := scores;
     ctime_now := "Thu Jan  1 00:00:00 1970" ++ newline |}.

Definition option_ (c : ascii) (arg : string) : getopt_result :=
  {| optc := c; optarg := arg; diagnostic := "" |}.

(** What [getopt] returns for [-x], with the words of the GNU C library. *)
Definition unknown_x : getopt_result :=
  {| optc := "?"; optarg := "";
     diagnostic := "ftptop: invalid option -- 'x'" ++ newline |}.

Definition at_startup : process := startup "/var/run/proftpd/proftpd.scoreboard".

(** The process after [ftptop -U]. *)
Definition upload_only : process :=
  set_display_session FTPTOP_SHOW_UPLOAD at_startup.

(** The process after [ftptop -d 0]. *)
Definition no_delay : process := set_delay 0 at_startup.

Definition upload_row : string :=
  "103   U administra 192.0.2 198.51.100.7 0 STOR notes.txt" ++ newline.

Definition listing_row : string :=
  "104   L administra 192.0.2 198.51.100.7 0 LIST" ++ newline.

End Scenario.

(** * Properties *)

Section CIntFacts.

Lemma to_int_id z : in_int z -> to_int z = z.
Proof.
  unfold in_int, INT_MIN, INT_MAX, to_int. intros Hz.
  rewrite Z.mod_small; lia.
Qed.

Lemma to_int_range z : in_int (to_int z).
Proof.
  unfold in_int, INT_MIN, INT_MAX, to_int.
  pose proof (Z.mod_pos_bound (z + 2 ^ 31) (2 ^ 32) ltac:(lia)). lia.
Qed.

Lemma uint32_range z : 0 <= uint32 z < 2 ^ 32.
Proof. apply Z.mod_pos_bound. lia. Qed.

Lemma uint32_id z : 0 <= z < 2 ^ 32 -> uint32 z = z.
Proof. apply Z.mod_small. Qed.


End CIntFacts.

Section StringFacts.

Lemma append_nil (s : string) : ("" ++ s)%string = s.
Proof. reflexivity. Qed.

Lemma append_cons (c : ascii) (a b : string) :
  (String c a ++ b)%string = String c (a ++ b)%string.
Proof. reflexivity. Qed.

Lemma append_empty_r (s : string) : (s ++ "")%string = s.
Proof.
  induction s as [|c s IH]; [reflexivity|]. now rewrite append_cons, IH.
Qed.

Lemma append_assoc (a b c : string) : ((a ++ b) ++ c = a ++ (b ++ c))%string.
Proof.
  induction a as [|x a IH]; [reflexivity|]. now rewrite !append_cons, IH.
Qed.

Lemma prefix_iff (n h : string) :
  String.prefix n h = true <-> exists after, h = (n ++ after)%string.
Proof.
  revert h. induction n as [|c n IH]; intros h.
  - split; [intros _; now exists h|]. intros _. now destruct h.
  - destruct h as [|d h]; cbn [String.prefix].
    + split; [discriminate|]. intros [after Hafter]. discriminate.
    + destruct (ascii_dec c d) as [->|Hne].
      * rewrite IH. split; intros [after Hafter]; exists after.
        -- now rewrite append_cons, Hafter.
        -- rewrite append_cons in Hafter. now injection Hafter.
      * split; [discriminate|]. intros [after Hafter].
        rewrite append_cons in Hafter. injection Hafter as Hc _. congruence.
Qed.

(** [strstr] finds the needle exactly when it occurs in the haystack. *)
Lemma strstr_occurs (h n : string) :
  non_null (strstr h n) = true <-> occurs_in n h.
Proof.
  induction h as [|c h IH]; cbn [strstr].
  - destruct (String.prefix n "") eqn:Hp; cbn [non_null].
    + split; [|easy]. intros _. apply prefix_iff in Hp as [after Hafter].
      exists ""%string, after. exact Hafter.
    + split; [discriminate|]. intros (before & after & Heq).
      destruct before; [|discriminate]. rewrite append_nil in Heq.
      assert (String.prefix n "" = true) by (apply prefix_iff; eauto).
      congruence.
  - destruct (String.prefix n (String c h)) eqn:Hp; cbn [non_null].
    + split; [|easy]. intros _. apply prefix_iff in Hp as [after Hafter].
      exists ""%string, after. exact Hafter.
    + rewrite IH. split.
      * intros (before & after & Heq). exists (String c before), after.
        now rewrite append_cons, Heq.
      * intros (before & after & Heq). destruct before as [|d before].
        -- rewrite append_nil in Heq.
           assert (String.prefix n (String c h) = true) by (apply prefix_iff; eauto).
           congruence.
        -- rewrite append_cons in Heq. injection Heq as _ Heq.
           now exists before, after.
Qed.

Lemma strstr_absent (h n : string) :
  non_null (strstr h n) = false <-> ~ occurs_in n h.
Proof.
  rewrite <- strstr_occurs. destruct (non_null (strstr h n)); split; congruence.
Qed.

End StringFacts.

Import Ftptop Spec.

(** Unfold the plumbing of commands. *)
Ltac run :=
  cbv [mbind mret M_bind M_ret get modify emit exit fault displayed] in *.

Section Classification.

Lemma occurs_or_not (needle label : string) :
  occurs_in needle label \/ ~ occurs_in needle label.
Proof.
  destruct (non_null (strstr label needle)) eqn:H.
  - left. now apply strstr_occurs.
  - right. now apply strstr_absent.
Qed.

Lemma first_match_total (label : string) : exists c, first_match label c.
Proof.
  destruct (occurs_or_not "(idle)" label); [eexists; now apply match_idle|].
  destruct (occurs_or_not "RETR" label); [eexists; now apply match_download|].
  destruct (occurs_or_not "STOR" label);
    [eexists; apply match_upload; tauto|].
  destruct (occurs_or_not "APPE" label);
    [eexists; apply match_upload; tauto|].
  destruct (occurs_or_not "STOU" label);
    [eexists; apply match_upload; tauto|].
  destruct (occurs_or_not "LIST" label);
    [eexists; apply match_listing; tauto|].
  destruct (occurs_or_not "NLST" label);
    [eexists; apply match_listing; tauto|].
  eexists; apply match_default; tauto.
Qed.

Lemma first_match_unique (label : string) (c c' : category) :
  first_match label c -> first_match label c' -> c = c'.
Proof. intros H H'. inversion H; inversion H'; subst; tauto. Qed.

(** The [if] chain of [read_scoreboard] computes the first-match category,
    counts it, and takes [continue] exactly when the filter drops it. *)
Lemma determine_status_spec (score : pr_scoreboard_entry_t) (p : process)
    (c : category) :
  first_match (sce_cmd score) c ->
  determine_status score p =
    Ret (symbol c, negb (retained (display_session p) c)) (count c p).
Proof.
  intros H. unfold determine_status.
  inversion H as [Hi|Hi Hd|Hi Hd Hu|Hi Hd Hu Hl|Hi Hd Hu Hl]; subst;
    repeat match goal with
    | H : occurs_in _ _ |- _ => apply strstr_occurs in H
    | H : ~ occurs_in _ _ |- _ => apply strstr_absent in H
    end.
  - rewrite Hi. run. cbn.
    now destruct (is_zero (Z.land (display_session p) FTPTOP_SHOW_IDLE)).
  - rewrite Hi, Hd. run. cbn.
    now destruct (is_zero (Z.land (display_session p) FTPTOP_SHOW_DOWNLOAD)).
  - rewrite Hi, Hd.
    assert (non_null (strstr (sce_cmd score) "STOR")
            || non_null (strstr (sce_cmd score) "APPE")
            || non_null (strstr (sce_cmd score) "STOU") = true) as ->.
    { rewrite !orb_true_iff, !strstr_occurs. tauto. }
    run. cbn.
    now destruct (is_zero (Z.land (display_session p) FTPTOP_SHOW_UPLOAD)).
  - rewrite Hi, Hd.
    assert (non_null (strstr (sce_cmd score) "STOR")
            || non_null (strstr (sce_cmd score) "APPE")
            || non_null (strstr (sce_cmd score) "STOU") = false) as ->.
    { rewrite !orb_false_iff, !strstr_absent. tauto. }
    assert (non_null (strstr (sce_cmd score) "LIST")
            || non_null (strstr (sce_cmd score) "NLST") = true) as ->.
    { rewrite !orb_true_iff, !strstr_occurs. tauto. }
    reflexivity.
  - rewrite Hi, Hd.
    assert (non_null (strstr (sce_cmd score) "STOR")
            || non_null (strstr (sce_cmd score) "APPE")
            || non_null (strstr (sce_cmd score) "STOU") = false) as ->.
    { rewrite !orb_false_iff, !strstr_absent. tauto. }
    assert (non_null (strstr (sce_cmd score) "LIST")
            || non_null (strstr (sce_cmd score) "NLST") = false) as ->.
    { rewrite !orb_false_iff, !strstr_absent. tauto. }
    reflexivity.
Qed.

(** Storing a row leaves the three category counters alone, whichever way
    it ends. *)
Lemma store_session_counters (env : poll_env) (status : string)
    (score : pr_scoreboard_entry_t) (p : process) :
  counters (final (store_session env status score p)) = counters p.
Proof.
  unfold store_session. run.
  generalize (format_session status score). intros buf.
  unfold realloc_array, calloc_copy.
  repeat (case_match; simplify_eq); reflexivity.
Qed.

(** C3: every session record is classified by the ordered first-match
    rules on its command label -- "(idle)" gives I, otherwise "RETR" gives
    D, otherwise "STOR", "APPE" or "STOU" gives U, otherwise "LIST" or
    "NLST" gives L, anything else gives the default A -- and the rules pick
    exactly one status for the record. *)
Theorem C3_first_match_classification (score : pr_scoreboard_entry_t)
    (p : process) :
  exists c : category,
    first_match (sce_cmd score) c /\
    (forall c', first_match (sce_cmd score) c' -> c' = c) /\
    exists continue p',
      determine_status score p = Ret (symbol c, continue) p'.
Proof.
  destruct (first_match_total (sce_cmd score)) as [c Hc].
  exists c. split; [exact Hc|]. split.
  - intros c' Hc'. exact (first_match_unique _ _ _ Hc' Hc).
  - eexists _, _. now apply determine_status_spec.
Qed.

(** C2: a record whose label contains "(idle)" gets status I and bumps
    the idle counter exactly once (in [unsigned int] arithmetic), whatever
    the display filter is, also when the filter drops the row; the same
    holds for the download and upload counters of the records that the
    rules classify as D and U.  The other two counters do not move. *)
Theorem C2_counters_ignore_filter (env : poll_env)
    (score : pr_scoreboard_entry_t) (p : process) (filter : Z) (c : category) :
  first_match (sce_cmd score) c ->
  let p0 := set_display_session filter p in
  determine_status score p0 =
    Ret (symbol c, negb (retained filter c)) (count c p0) /\
  counters (final (read_entry env score p0)) =
    match c with
    | Idle => (uint32 (ftp_nidles p + 1), ftp_ndownloads p, ftp_nuploads p)
    | Download => (ftp_nidles p, uint32 (ftp_ndownloads p + 1), ftp_nuploads p)
    | Upload => (ftp_nidles p, ftp_ndownloads p, uint32 (ftp_nuploads p + 1))
    | Listing | Authenticating =>
        (ftp_nidles p, ftp_ndownloads p, ftp_nuploads p)
    end.
Proof.
  intros Hc p0. pose proof (determine_status_spec score p0 c Hc) as Hd.
  split; [exact Hd|].
  unfold read_entry. run. rewrite Hd. cbn [fst snd].
  destruct (negb (retained (display_session p0) c)).
  - now destruct c.
  - rewrite store_session_counters. now destruct c.
Qed.

Lemma C2_witness :
  let score := {| sce_pid := 7; sce_user := "ann"; sce_client_addr := "10.1.1.9";
                  sce_server_addr := "ftp"; sce_cmd := "(idle)" |} in
  let env := {| memory_ok := true; open_res := 0; open_strerror := "";
                entries := [score]; ctime_now := "" |} in
  let p0 := set_display_session FTPTOP_SHOW_UPLOAD (startup "sb") in
  first_match "(idle)" Idle /\
  determine_status score p0 = Ret ("I", true) (count Idle p0) /\
  counters (final (read_entry env score p0)) = (1, 0, 0).
Proof.
  intros score env p0.
  assert (first_match (sce_cmd score) Idle) as H.
  { apply match_idle. now exists ""%string, ""%string. }
  split; [exact H|].
  exact (C2_counters_ignore_filter env score (startup "sb")
           FTPTOP_SHOW_UPLOAD Idle H).
Defined.

End Classification.

Section Atoi.

Lemma digits_acc_uint_pos (u : Decimal.uint) (acc : positive) :
  digits_acc (NilEmpty.string_of_uint u) (Z.pos acc) =
  Z.pos (Pos.of_uint_acc u acc).
Proof.
  revert acc.
  induction u as [|u IH|u IH|u IH|u IH|u IH|u IH|u IH|u IH|u IH|u IH];
    intros acc; [reflexivity|..];
    cbn [NilEmpty.string_of_uint Pos.of_uint_acc];
    rewrite <- IH;
    match goal with
    | |- digits_acc (String ?c ?s) ?a = _ =>
        change (digits_acc (String c s) a)
          with (digits_acc s (a * 10 + digit_val c))
    end;
    f_equal; vm_compute (digit_val _); lia.
Qed.

Lemma digits_acc_uint (u : Decimal.uint) :
  digits_acc (NilEmpty.string_of_uint u) 0 = Z.of_N (Pos.of_uint u).
Proof.
  induction u as [|u IH|u IH|u IH|u IH|u IH|u IH|u IH|u IH|u IH|u IH];
    [reflexivity|exact IH|..];
    cbn [NilEmpty.string_of_uint Pos.of_uint Z.of_N];
    rewrite <- digits_acc_uint_pos; reflexivity.
Qed.

(** Reading back the digits of a positive number. *)
Lemma digits_acc_to_uint (q : positive) :
  digits_acc (NilEmpty.string_of_uint (Pos.to_uint q)) 0 = Z.pos q.
Proof. now rewrite digits_acc_uint, Unsigned.of_to. Qed.

(** A rendered number begins with a digit: no white space is skipped and
    no sign is consumed. *)
Lemma strtol10_digits (u : Decimal.uint) :
  u <> Decimal.Nil ->
  strtol10 (NilEmpty.string_of_uint u) =
  clamp LONG_MIN LONG_MAX (digits_acc (NilEmpty.string_of_uint u) 0).
Proof. intros Hu. now destruct u. Qed.

Lemma clamp_int (n : Z) : in_int n -> clamp LONG_MIN LONG_MAX n = n.
Proof. unfold in_int, INT_MIN, INT_MAX, clamp, LONG_MIN, LONG_MAX. lia. Qed.

(** [atoi] reads back what [%d] prints, for every value of type [int]. *)
Lemma atoi_dec (n : Z) : in_int n -> atoi (dec n) = n.
Proof.
  intros Hn. unfold atoi, dec. destruct n as [|q|q]; [reflexivity|..].
  - cbn [Z.to_int NilEmpty.string_of_int].
    rewrite strtol10_digits by apply Unsigned.to_uint_nonnil.
    rewrite digits_acc_to_uint, clamp_int by exact Hn. now apply to_int_id.
  - cbn [Z.to_int NilEmpty.string_of_int].
    change (to_int (clamp LONG_MIN LONG_MAX
              (- digits_acc (NilEmpty.string_of_uint (Pos.to_uint q)) 0)) = Z.neg q).
    rewrite digits_acc_to_uint.
    change (- Z.pos q) with (Z.neg q).
    rewrite clamp_int by exact Hn. now apply to_int_id.
Qed.

Lemma digits_acc_no_digit (s : string) (acc : Z) :
  starts_with_digit s = false -> digits_acc s acc = acc.
Proof. destruct s as [|c s]; [reflexivity|]. cbn. now intros ->. Qed.

(** Without a digit to convert, [atoi] yields 0. *)
Lemma atoi_no_conversion (s : string) :
  parses_as_integer s = false -> atoi s = 0.
Proof.
  unfold parses_as_integer, atoi, strtol10.
  destruct (skip_space s) as [|c rest]; [reflexivity|].
  destruct (Ascii.eqb c "-"); cbn [orb].
  { intros H. now rewrite digits_acc_no_digit. }
  destruct (Ascii.eqb c "+").
  { intros H. now rewrite digits_acc_no_digit. }
  intros H. now rewrite digits_acc_no_digit.
Qed.

End Atoi.

Section Options.

Lemma set_log_same (p : process) : set_log (log p ++ []) p = p.
Proof. destruct p. cbn. now rewrite app_nil_r. Qed.

Lemma set_log_twice (xs ys : list event) (p : process) :
  set_log (log (set_log (log p ++ xs) p) ++ ys) (set_log (log p ++ xs) p) =
  set_log (log p ++ xs ++ ys) p.
Proof. destruct p. cbn. now rewrite app_assoc. Qed.

(** [getopt] reports the option it rejects and hands it out. *)
Lemma getopt_spec (o : getopt_result) (p : process) :
  getopt o p = Ret o (reported o p).
Proof.
  unfold getopt, reported, getopt_report.
  destruct (Ascii.eqb (optc o) "?"); run; [reflexivity|].
  now rewrite set_log_same.
Qed.

Lemma reported_known (o : getopt_result) (p : process) :
  Ascii.eqb (optc o) "?" = false -> reported o p = p.
Proof.
  intros Hknown. unfold reported, getopt_report. rewrite Hknown.
  apply set_log_same.
Qed.

Lemma process_opts_cons (o : getopt_result) (rest : list getopt_result)
    (p : process) :
  process_opts (o :: rest) p =
  (process_opt o;; process_opts rest) (reported o p).
Proof.
  cbn [process_opts]. unfold mbind at 1. unfold M_bind at 1.
  now rewrite getopt_spec.
Qed.

(** An option of the option string: [getopt] writes nothing. *)
Lemma process_opts_known (o : getopt_result) (rest : list getopt_result)
    (p : process) :
  Ascii.eqb (optc o) "?" = false ->
  process_opts (o :: rest) p = (process_opt o;; process_opts rest) p.
Proof.
  intros Hknown. rewrite process_opts_cons. now rewrite reported_known.
Qed.

Lemma process_opts_cons_ret (o : getopt_result) (rest : list getopt_result)
    (p p' : process) :
  process_opts (o :: rest) p = Ret tt p' ->
  exists q, process_opt o (reported o p) = Ret tt q /\
            process_opts rest q = Ret tt p'.
Proof.
  rewrite process_opts_cons. run.
  destruct (process_opt o (reported o p)) as [[] q|?|?]; try discriminate.
  intros H. now exists q.
Qed.

Lemma process_opts_app_ret (pre post : list getopt_result) (p p' : process) :
  process_opts (pre ++ post) p = Ret tt p' ->
  exists q, process_opts pre p = Ret tt q /\ process_opts post q = Ret tt p'.
Proof.
  revert p. induction pre as [|o pre IH]; intros p H.
  - now exists p.
  - rewrite <- app_comm_cons in H.
    apply process_opts_cons_ret in H as (q & Ho & Hrest).
    apply IH in Hrest as (q' & Hpre & Hpost). exists q'. split; [|exact Hpost].
    rewrite process_opts_cons. run. now rewrite Ho.
Qed.

(** What one option does to the display filter. *)
Lemma process_opt_display (o : getopt_result) (p q : process) :
  process_opt o p = Ret tt q ->
  display_session q =
    match exclusive_filter (optc o) with
    | Some bit => bit
    | None =>
        if is_exclude_idle o then without_idle (display_session p)
        else display_session p
    end.
Proof.
  destruct o as [c arg msg]. unfold process_opt, is_exclude_idle, exclusive_filter.
  cbn [optc optarg]. generalize (atoi arg). intros n.
  unfold usage, show_version, util_set_scoreboard, fprintf_stdout, fprintf_stderr.
  destruct c as [b0 b1 b2 b3 b4 b5 b6 b7].
  destruct b0, b1, b2, b3, b4, b5, b6, b7; run; cbn [Ascii.eqb Bool.eqb];
    try (intros H; simplify_eq; reflexivity).
  cbn [delay set_delay]. destruct (n <? 0); intros H; simplify_eq. reflexivity.
Qed.

Lemma without_idle_twice (filter : Z) :
  without_idle (without_idle filter) = without_idle filter.
Proof.
  unfold without_idle. now rewrite <- Z.land_assoc, Z.land_diag.
Qed.

(** Options that install no filter can only clear the Idle bit. *)
Lemma process_opts_no_exclusive (post : list getopt_result) (q p' : process) :
  Forall (fun o => exclusive_filter (optc o) = None) post ->
  process_opts post q = Ret tt p' ->
  display_session p' =
    if existsb is_exclude_idle post then without_idle (display_session q)
    else display_session q.
Proof.
  intros Hpost. revert q. induction Hpost as [|o post Ho Hpost IH]; intros q H.
  - cbn [process_opts] in H. run. now simplify_eq.
  - apply process_opts_cons_ret in H as (q' & Hq' & Hrest).
    apply IH in Hrest. apply process_opt_display in Hq'. rewrite Ho in Hq'.
    change (display_session (reported o q)) with (display_session q) in Hq'.
    cbn [existsb]. rewrite Hrest, Hq'.
    destruct (is_exclude_idle o), (existsb is_exclude_idle post); cbn [orb];
      auto using without_idle_twice.
Qed.

(** C7: [-i] clears the Idle bit of the display filter and leaves the
    Download and Upload bits as they were; each of [-D], [-I] and [-U]
    replaces the whole filter by its own single category; so among several
    of [-D], [-I], [-U] the last one processed decides the filter (any [-i]
    after it still clears the Idle bit). *)
Theorem C7_filter_options (p : process) (arg msg : string) :
  let filter := display_session p in
  (process_opt {| optc := "i"; optarg := arg; diagnostic := msg |} p =
     Ret tt (set_display_session (without_idle filter) p) /\
   Z.land (without_idle filter) FTPTOP_SHOW_DOWNLOAD =
     Z.land filter FTPTOP_SHOW_DOWNLOAD /\
   Z.land (without_idle filter) FTPTOP_SHOW_UPLOAD =
     Z.land filter FTPTOP_SHOW_UPLOAD /\
   Z.land (without_idle filter) FTPTOP_SHOW_IDLE = 0) /\
  process_opt {| optc := "D"; optarg := arg; diagnostic := msg |} p =
    Ret tt (set_display_session FTPTOP_SHOW_DOWNLOAD p) /\
  process_opt {| optc := "I"; optarg := arg; diagnostic := msg |} p =
    Ret tt (set_display_session FTPTOP_SHOW_IDLE p) /\
  process_opt {| optc := "U"; optarg := arg; diagnostic := msg |} p =
    Ret tt (set_display_session FTPTOP_SHOW_UPLOAD p) /\
  (forall (pre post : list getopt_result) (x : getopt_result) (bit : Z)
          (p' : process),
     exclusive_filter (optc x) = Some bit ->
     Forall (fun o => exclusive_filter (optc o) = None) post ->
     process_opts (pre ++ x :: post) p = Ret tt p' ->
     display_session p' =
       if existsb is_exclude_idle post then without_idle bit else bit).
Proof.
  intros filter. repeat split; try reflexivity.
  - unfold without_idle. now rewrite <- Z.land_assoc.
  - unfold without_idle. now rewrite <- Z.land_assoc.
  - unfold without_idle. rewrite <- Z.land_assoc. apply Z.land_0_r.
  - intros pre post x bit p' Hx Hpost Hrun.
    apply process_opts_app_ret in Hrun as (q & _ & Hrun).
    apply process_opts_cons_ret in Hrun as (q' & Hq' & Hrun).
    apply process_opt_display in Hq'. rewrite Hx in Hq'.
    rewrite (process_opts_no_exclusive post q' p' Hpost Hrun). now rewrite Hq'.
Qed.

Lemma C7_witness :
  display_session
    (final (process_opts
              [ {| optc := "D"; optarg := ""; diagnostic := "" |};
                {| optc := "i"; optarg := ""; diagnostic := "" |};
                {| optc := "U"; optarg := ""; diagnostic := "" |};
                {| optc := "d"; optarg := "5"; diagnostic := "" |} ]
              (startup "scoreboard"))) = FTPTOP_SHOW_UPLOAD.
Proof.
  pose proof (C7_filter_options (startup "scoreboard") "" "")
    as (_ & _ & _ & _ & H).
  refine (H [ {| optc := "D"; optarg := ""; diagnostic := "" |}; {| optc := "i"; optarg := ""; diagnostic := "" |} ]
            [ {| optc := "d"; optarg := "5"; diagnostic := "" |} ]
            {| optc := "U"; optarg := ""; diagnostic := "" |} FTPTOP_SHOW_UPLOAD _ _ _ _).
  - reflexivity.
  - repeat constructor.
  - reflexivity.
Defined.

(** C5: for every integer [n] given to [-d] (written in decimal, within
    the range of [int]), the parser accepts it when [n >= 0], setting the
    refresh delay to [n] and going on with the remaining options; when
    [n < 0] it prints the diagnostic on stderr and the process exits with
    status 1, nothing else being processed. *)
Theorem C5_refresh_delay_option (n : Z) (msg : string)
    (rest : list getopt_result) (p : process) :
  in_int n ->
  process_opts ({| optc := "d"; optarg := dec n; diagnostic := msg |} :: rest) p =
    if n <? 0 then
      Exit 1 (set_log (log p ++ [Stderr (negative_delay_diagnostic n)])
                (set_delay n p))
    else process_opts rest (set_delay n p).
Proof.
  intros Hn. rewrite process_opts_known by reflexivity.
  unfold process_opt. cbn [optc optarg].
  rewrite atoi_dec by exact Hn. unfold fprintf_stderr. run.
  cbn [delay set_delay]. destruct (n <? 0); [|reflexivity].
  cbn [log set_delay]. do 3 f_equal.
  rewrite <- (to_int_id n Hn) at 2. reflexivity.
Qed.

Lemma C5_witness :
  in_int (-3) /\
  process_opts [ {| optc := "d"; optarg := "-3"; diagnostic := "" |};
                 {| optc := "U"; optarg := ""; diagnostic := "" |} ] (startup "scoreboard") =
    Exit 1 (set_log [Stderr (negative_delay_diagnostic (-3))]
              (set_delay (-3) (startup "scoreboard"))).
Proof.
  assert (in_int (-3)) as H by (unfold in_int, INT_MIN, INT_MAX; lia).
  split; [exact H|].
  exact (C5_refresh_delay_option (-3) "" [ {| optc := "U"; optarg := ""; diagnostic := "" |} ]
           (startup "scoreboard") H).
Defined.

(** C5, beyond the range of [int]: the argument 2147483648 is not
    negative, yet [atoi] hands back -2147483648 and the parser rejects it
    with its diagnostic and exit status 1; and the negative argument
    -4294967295 is accepted, as a refresh delay of 1. *)
Lemma C5_counterexample :
  let p := startup "scoreboard" in
  let big := {| optc := "d"; optarg := "2147483648"; diagnostic := "" |} in
  let low := {| optc := "d"; optarg := "-4294967295"; diagnostic := "" |} in
  (dec 2147483648 = "2147483648" /\ 0 <= 2147483648 /\
   process_opts [big] p =
     Exit 1 (set_log [Stderr ("ftptop: negative delay illegal: -2147483648"
                              ++ newline)]
               (set_delay (-2147483648) p)) /\
   process_opts [big] p <> process_opts [] (set_delay 2147483648 p)) /\
  (dec (-4294967295) = "-4294967295" /\ -4294967295 < 0 /\
   process_opts [low] p = Ret tt (set_delay 1 p)).
Proof.
  cbv zeta. split; [split; [|split; [|split]]|split; [|split]].
  - reflexivity.
  - lia.
  - vm_compute. reflexivity.
  - vm_compute. discriminate.
  - reflexivity.
  - lia.
  - vm_compute. reflexivity.
Qed.

(** C10: a [-d] argument that does not parse as an integer (no digit
    follows the optional white space and sign, as in "abc") is not
    reported: [atoi] converts it to 0 and the parser goes on with a
    refresh delay of 0. *)
Theorem C10_unparsable_delay_is_zero (arg msg : string)
    (rest : list getopt_result) (p : process) :
  parses_as_integer arg = false ->
  atoi arg = 0 /\
  process_opt {| optc := "d"; optarg := arg; diagnostic := msg |} p = Ret tt (set_delay 0 p) /\
  process_opts ({| optc := "d"; optarg := arg; diagnostic := msg |} :: rest) p =
    process_opts rest (set_delay 0 p).
Proof.
  intros H. apply atoi_no_conversion in H.
  split; [exact H|].
  rewrite process_opts_known by reflexivity.
  unfold process_opt. cbn [optc optarg]. rewrite H.
  split; reflexivity.
Qed.

Lemma C10_witness :
  parses_as_integer "abc" = false /\
  atoi "abc" = 0 /\
  process_opt {| optc := "d"; optarg := "abc"; diagnostic := "" |} (startup "scoreboard") =
    Ret tt (set_delay 0 (startup "scoreboard")) /\
  process_opts [ {| optc := "d"; optarg := "abc"; diagnostic := "" |} ] (startup "scoreboard") =
    process_opts [] (set_delay 0 (startup "scoreboard")).
Proof.
  split; [reflexivity|].
  exact (C10_unparsable_delay_is_zero "abc" "" [] (startup "scoreboard") eq_refl).
Defined.

End Options.

Section Formatting.

Lemma strtake_all (n : nat) (s : string) :
  (String.length s <= n)%nat -> strtake n s = s.
Proof.
  revert n. induction s as [|c s IH]; intros [|n] H; cbn in *; try reflexivity.
  - lia.
  - f_equal. apply IH. lia.
Qed.

Lemma strtake_length (n : nat) (s : string) :
  (String.length (strtake n s) <= n)%nat.
Proof.
  revert s. induction n as [|n IH]; intros [|c s]; cbn; try lia.
  specialize (IH s). lia.
Qed.

Lemma pad_left_0 (body : string) : pad true 0 body = body.
Proof. unfold pad. cbn [Nat.sub spaces]. apply append_empty_r. Qed.

Lemma pad_right_0 (body : string) : pad false 0 body = body.
Proof. reflexivity. Qed.

(** What [snprintf] leaves in [buf]: the row layout, cut to the 1023
    characters that [buf] can hold. *)
Lemma format_session_text (status : string) (score : pr_scoreboard_entry_t) :
  in_int (sce_pid score) ->
  format_session status score = strtake 1023 (row_layout status score).
Proof.
  destruct score as [pid user client server cmd].
  cbn [sce_pid]. intros Hpid.
  unfold format_session, snprintf, sprintf, row_layout.
  cbn [sce_pid sce_user sce_client_addr sce_server_addr sce_cmd].
  set (fmt := FTPTOP_DISPLAY_FORMAT). vm_compute in fmt. subst fmt.
  cbv - [pad precise dec to_int strtake String.append Nat.sub].
  unfold precise. rewrite !pad_left_0, !pad_right_0, (to_int_id _ Hpid).
  reflexivity.
Qed.

(** When storing a row returns, the row that [snprintf] produced sits at
    the old index [ftp_nsessions], and the count has gone up by one. *)
Lemma store_session_ret (env : poll_env) (status : string)
    (score : pr_scoreboard_entry_t) (p q : process) :
  store_session env status score p = Ret tt q ->
  exists array,
    ftp_sessions q = Some array /\
    array !! Z.to_nat (ftp_nsessions p) = Some (Some (format_session status score)) /\
    ftp_nsessions q = uint32 (ftp_nsessions p + 1).
Proof.
  unfold store_session. generalize (format_session status score). intros buf.
  unfold realloc_array, calloc_copy. run. intros Hret.
  destruct (memory_ok env);
    repeat (case_match; cbn - [uint32 Z.to_nat Z.modulo Nat.ltb] in *; simplify_eq);
    (eexists; split; [reflexivity|]; split; [|reflexivity]);
    apply list_lookup_insert_eq; cbn [ftp_nsessions set_ftp_sessions] in *;
    apply Nat.ltb_lt; assumption.
Qed.

(** C9: the row formatted for an emitted session record has the fixed
    layout: the process id left-justified in 5 columns, the one-character
    status symbol, the user name cut to 10 characters, the client address
    cut to 7, the whole server address, the placeholder column "0", the
    command label cut to 20 characters, single blanks between the fields
    and a newline at the end.  (The fields of a scoreboard entry are short
    character arrays, so the row fits the 1024 bytes of [buf].) *)
Theorem C9_row_layout (env : poll_env) (score : pr_scoreboard_entry_t)
    (p p' q : process) (status : string) :
  determine_status score p = Ret (status, false) p' ->
  read_entry env score p = Ret tt q ->
  in_int (sce_pid score) ->
  (String.length (row_layout status score) <= 1023)%nat ->
  String.length status = 1%nat /\
  format_session status score = row_layout status score /\
  exists array,
    ftp_sessions q = Some array /\
    array !! Z.to_nat (ftp_nsessions p) = Some (Some (row_layout status score)).
Proof.
  intros Hstatus Hread Hpid Hfits.
  assert (format_session status score = row_layout status score) as Hrow.
  { rewrite format_session_text by exact Hpid. now apply strtake_all. }
  split; [|split; [exact Hrow|]].
  - destruct (first_match_total (sce_cmd score)) as [c Hc].
    rewrite (determine_status_spec score p c Hc) in Hstatus.
    injection Hstatus as <- _ _. now destruct c.
  - unfold read_entry in Hread. run. rewrite Hstatus in Hread.
    cbn [fst snd] in Hread.
    apply store_session_ret in Hread as (array & Harray & Hrow' & _).
    exists array. split; [exact Harray|]. rewrite <- Hrow.
    destruct (first_match_total (sce_cmd score)) as [c Hc].
    rewrite (determine_status_spec score p c Hc) in Hstatus.
    injection Hstatus as _ _ <-. now destruct c.
Qed.

End Formatting.

Section Poll.

Lemma classify_first_match (label : string) : first_match label (classify label).
Proof.
  unfold classify.
  destruct (non_null (strstr label "(idle)")) eqn:Hi.
  { apply match_idle. now apply strstr_occurs. }
  destruct (non_null (strstr label "RETR")) eqn:Hd.
  { apply match_download; [now apply strstr_absent|now apply strstr_occurs]. }
  destruct (non_null (strstr label "STOR") || non_null (strstr label "APPE")
            || non_null (strstr label "STOU")) eqn:Hu.
  { apply match_upload; [now apply strstr_absent..|].
    rewrite !orb_true_iff, !strstr_occurs in Hu. tauto. }
  rewrite !orb_false_iff, !strstr_absent in Hu.
  destruct (non_null (strstr label "LIST") || non_null (strstr label "NLST")) eqn:Hl.
  { apply match_listing; [now apply strstr_absent..|tauto|].
    rewrite !orb_true_iff, !strstr_occurs in Hl. tauto. }
  rewrite !orb_false_iff, !strstr_absent in Hl.
  apply match_default; [now apply strstr_absent..|tauto|tauto].
Qed.

(** Storing a row when the allocator cooperates and the count cannot wrap:
    the row lands at index [ftp_nsessions], inside the array. *)
Lemma store_session_spec (env : poll_env) (status : string)
    (score : pr_scoreboard_entry_t) (p : process) (array : list (option string)) :
  memory_ok env = true ->
  ftp_sessions p = Some array ->
  capacity_ok array (ftp_nsessions p) ->
  ftp_nsessions p + chunklen < 2 ^ 32 ->
  exists array',
    store_session env status score p =
      Ret tt (set_ftp_nsessions (ftp_nsessions p + 1)
                (set_ftp_sessions (Some array') p)) /\
    capacity_ok array' (ftp_nsessions p + 1) /\
    take (Z.to_nat (ftp_nsessions p + 1)) array' =
      (take (Z.to_nat (ftp_nsessions p)) array
       ++ [Some (format_session status score)])%list.
Proof.
  destruct p as [dl ds n nu nd ni ss file lg].
  cbn [ftp_nsessions ftp_sessions]. intros Hmem -> [Hn Hcap] Hwrap.
  unfold store_session. generalize (format_session status score). intros buf.
  unfold realloc_array, calloc_copy. rewrite Hmem. run. unfold chunklen in *.
  cbn [ftp_nsessions ftp_sessions set_ftp_sessions set_ftp_nsessions default
       non_null delay display_session ftp_nuploads ftp_ndownloads ftp_nidles
       scoreboard_file log].
  assert (uint32 (n + 1) = n + 1) as Hn1 by (apply uint32_id; lia).
  assert (uint32 (n + 3) = n + 3) as Hn3 by (apply uint32_id; lia).
  destruct (negb (is_zero n) && (n mod 3 =? 0)) eqn:Hfull.
  - apply andb_true_iff in Hfull as [Hnz Hmod].
    apply negb_true_iff, Z.eqb_neq in Hnz. apply Z.eqb_eq in Hmod.
    assert (Z.of_nat (length array) = n) as Hlen.
    { rewrite Hcap. Z.to_euclidean_division_equations. lia. }
    cbn [non_null ftp_sessions set_ftp_sessions ftp_nsessions default].
    cbv [id]. rewrite Hn3.
    assert ((Z.to_nat n <? length (resize (Z.to_nat (n + 3)) None array))%nat = true) as ->.
    { apply Nat.ltb_lt. rewrite length_resize. lia. }
    rewrite Hn1. eexists. split; [reflexivity|]. split.
    + unfold capacity_ok, chunklen. split; [lia|].
      rewrite length_insert, length_resize.
      Z.to_euclidean_division_equations. lia.
    + replace (Z.to_nat (n + 1)) with (S (Z.to_nat n)) by lia.
      rewrite (take_S_r _ _ (Some buf)).
      * rewrite take_insert_ge by lia.
        rewrite take_resize_le by lia. now rewrite resize_le by lia.
      * apply list_lookup_insert_eq. rewrite length_resize. lia.
  - cbn [non_null ftp_sessions set_ftp_sessions ftp_nsessions].
    assert (n < Z.of_nat (length array)) as Hlt.
    { rewrite Hcap. apply andb_false_iff in Hfull as [Hz|Hmod].
      - apply negb_false_iff, Z.eqb_eq in Hz. rewrite Hz. cbn. lia.
      - apply Z.eqb_neq in Hmod. Z.to_euclidean_division_equations. lia. }
    assert ((Z.to_nat n <? length array)%nat = true) as ->.
    { apply Nat.ltb_lt. lia. }
    rewrite Hn1. eexists. split; [reflexivity|]. split.
    + unfold capacity_ok, chunklen. split; [lia|]. rewrite length_insert, Hcap.
      apply andb_false_iff in Hfull as [Hz|Hmod].
      * apply negb_false_iff, Z.eqb_eq in Hz. rewrite Hz. reflexivity.
      * apply Z.eqb_neq in Hmod. Z.to_euclidean_division_equations. lia.
    + replace (Z.to_nat (n + 1)) with (S (Z.to_nat n)) by lia.
      rewrite (take_S_r _ _ (Some buf)).
      * now rewrite take_insert_ge by lia.
      * apply list_lookup_insert_eq. lia.
Qed.

Lemma retained_entries_cons (flt : Z) (score : pr_scoreboard_entry_t)
    (rest : list pr_scoreboard_entry_t) :
  retained_entries flt (score :: rest) =
    if retained flt (classify (sce_cmd score))
    then score :: retained_entries flt rest
    else retained_entries flt rest.
Proof.
  unfold retained_entries. rewrite filter_cons.
  destruct (retained flt (classify (sce_cmd score))); now case_decide.
Qed.

Lemma tally_cons (c : category) (score : pr_scoreboard_entry_t)
    (rest : list pr_scoreboard_entry_t) :
  tally c (score :: rest) =
    (if category_eqb (classify (sce_cmd score)) c then 1 else 0) + tally c rest.
Proof.
  unfold tally. rewrite filter_cons.
  destruct (category_eqb (classify (sce_cmd score)) c); case_decide;
    try congruence; cbn [length]; lia.
Qed.

Lemma uint32_add_l (a b : Z) : uint32 (uint32 a + b) = uint32 (a + b).
Proof. unfold uint32. apply Zplus_mod_idemp_l. Qed.

(** The [while] loop of [read_scoreboard]: every entry is counted in its
    category, and the rows of the retained entries are appended to the
    array in scoreboard order. *)
Lemma read_entries_spec (env : poll_env) (scores : list pr_scoreboard_entry_t) :
  memory_ok env = true ->
  forall (p : process) (array : list (option string)),
    ftp_sessions p = Some array ->
    capacity_ok array (ftp_nsessions p) ->
    counters_in_range p ->
    ftp_nsessions p + Z.of_nat (length scores) + chunklen <= 2 ^ 32 ->
    let n' := ftp_nsessions p
              + Z.of_nat (length (retained_entries (display_session p) scores)) in
    exists array',
      read_entries env scores p =
        Ret tt {| delay := delay p;
                  display_session := display_session p;
                  ftp_nsessions := n';
                  ftp_nuploads := uint32 (ftp_nuploads p + tally Upload scores);
                  ftp_ndownloads := uint32 (ftp_ndownloads p + tally Download scores);
                  ftp_nidles := uint32 (ftp_nidles p + tally Idle scores);
                  ftp_sessions := Some array';
                  scoreboard_file := scoreboard_file p;
                  log := log p |} /\
      capacity_ok array' n' /\
      take (Z.to_nat n') array' =
        (take (Z.to_nat (ftp_nsessions p)) array
         ++ map Some (retained_rows (display_session p) scores))%list.
Proof.
  intros Hmem. induction scores as [|score rest IH];
    intros p array Harray Hcap (Hu & Hd & Hi) Hwrap n'.
  - exists array. subst n'. cbn [retained_entries filter length list_filter].
    unfold retained_rows, tally. cbn. change (Z.of_nat 0) with 0.
    rewrite !Z.add_0_r, app_nil_r. rewrite !uint32_id by assumption.
    destruct p; cbn in *. now subst.
  - set (c := classify (sce_cmd score)).
    pose proof (determine_status_spec score p c (classify_first_match _)) as Hdet.
    cbn [read_entries]. unfold read_entry. run. rewrite Hdet. cbn [fst snd].
    assert (ftp_sessions (count c p) = Some array) as Harray'
      by (now destruct c).
    assert (ftp_nsessions (count c p) = ftp_nsessions p) as Hn'
      by (now destruct c).
    assert (display_session (count c p) = display_session p) as Hds'
      by (now destruct c).
    assert (counters_in_range (count c p)) as Hrange'.
    { unfold counters_in_range.
      destruct c; cbn; repeat split; try lia; apply uint32_range. }
    cbn [length] in Hwrap.
    subst n'. unfold retained_rows. rewrite retained_entries_cons. fold c.
    rewrite !tally_cons. fold c.
    destruct (retained (display_session p) c) eqn:Hret; cbn [negb].
    + destruct (store_session_spec env (symbol c) score (count c p) array)
        as (array1 & Hstore & Hcap1 & Htake1); try assumption.
      { now rewrite Hn'. }
      { rewrite Hn'. destruct Hcap. lia. }
      rewrite Hstore. rewrite Hn' in *.
      set (p1 := set_ftp_nsessions _ _) in *.
      destruct (IH p1 array1) as (array2 & Hrest & Hcap2 & Htake2).
      { reflexivity. }
      { exact Hcap1. }
      { subst p1. now destruct c. }
      { subst p1. cbn. destruct Hcap. lia. }
      exists array2. rewrite Hrest.
      assert (display_session p1 = display_session p) as Hds1
        by (subst p1; now destruct c).
      rewrite Hds1 in *.
      replace (ftp_nsessions p1) with (ftp_nsessions p + 1) in * by reflexivity.
      cbn [length map].
      replace (ftp_nsessions p + Z.of_nat (S (length (retained_entries (display_session p) rest))))
        with (ftp_nsessions p + 1 + Z.of_nat (length (retained_entries (display_session p) rest)))
        by lia.
      split; [|split; [exact Hcap2|]].
      * subst p1. destruct p, c; cbn in *; f_equal; f_equal;
          rewrite ?uint32_add_l; f_equal; lia.
      * rewrite Htake2, Htake1, <- app_assoc. reflexivity.
    + destruct (IH (count c p) array) as (array2 & Hrest & Hcap2 & Htake2);
        try assumption.
      { now rewrite Hn'. }
      { rewrite Hn'. lia. }
      exists array2. rewrite Hrest. rewrite Hn', Hds' in *.
      split; [|split; [exact Hcap2|exact Htake2]].
      destruct p, c; cbn in *; f_equal; f_equal;
        rewrite ?uint32_add_l; f_equal; lia.
Qed.

Lemma clear_counters_spec (p : process) :
  clear_counters p = Ret tt (cleared p).
Proof.
  unfold clear_counters, cleared. run.
  now destruct (non_null (ftp_sessions p) && negb (is_zero (ftp_nsessions p))).
Qed.

Lemma sprintf_s (text : string) : sprintf "%s" [VStr text] = text.
Proof. unfold sprintf. cbn. unfold pad. cbn. apply append_empty_r. Qed.

Lemma sprintf_title (now : string) :
  sprintf (FTPTOP_VERSION ++ ": %s") [VStr now] = title_line now.
Proof.
  unfold sprintf, title_line.
  set (fmt := (FTPTOP_VERSION ++ ": %s")%string). vm_compute in fmt. subst fmt.
  cbv - [pad precise String.append Nat.sub].
  unfold precise. rewrite pad_right_0, append_empty_r. reflexivity.
Qed.

Lemma sprintf_summary (total downloading uploading idle : Z) :
  0 <= total < 2 ^ 32 -> 0 <= downloading < 2 ^ 32 ->
  0 <= uploading < 2 ^ 32 -> 0 <= idle < 2 ^ 32 ->
  sprintf summary_format [VInt total; VInt downloading; VInt uploading; VInt idle]
  = summary_line total downloading uploading idle.
Proof.
  intros Ht Hd Hu Hi. unfold sprintf, summary_line.
  set (fmt := summary_format). vm_compute in fmt. subst fmt.
  cbv - [pad dec uint32 to_int String.append Nat.sub].
  rewrite !pad_right_0, !uint32_id by assumption. reflexivity.
Qed.

(** The [for] loop of [show_sessions] writes the rows in index order. *)
Lemma print_sessions_spec (rows : list string) :
  forall (i : nat) (p : process) (array : list (option string)),
    ftp_sessions p = Some array ->
    (forall j row, rows !! j = Some row -> array !! (i + j)%nat = Some (Some row)) ->
    print_sessions i (length rows) p =
      Ret tt (set_log (log p ++ map Printw rows) p).
Proof.
  induction rows as [|row rows IH]; intros i p array Harray Hrows.
  - cbn. run. destruct p; cbn. now rewrite app_nil_r.
  - cbn [length print_sessions]. unfold printw. run. rewrite Harray.
    cbn [option_bind]. pose proof (Hrows 0%nat row eq_refl) as Hrow.
    rewrite Nat.add_0_r in Hrow. rewrite Hrow, sprintf_s.
    rewrite (IH (S i) _ array).
    + destruct p; cbn. now rewrite <- app_assoc.
    + exact Harray.
    + intros j r Hj. replace (S i + j)%nat with (i + S j)%nat by lia.
      now apply Hrows.
Qed.

Lemma bind_ret {A B} (m : M A) (k : A -> M B) (p q : process) (a : A) :
  m p = Ret a q -> (m ≫= k) p = k a q.
Proof. intros H. unfold mbind, M_bind. now rewrite H. Qed.

Context `{utils_h}.

Lemma scoreboard_open_ok (env : poll_env) (p : process) :
  open_fails env = false -> scoreboard_open env p = Ret 0 p.
Proof.
  unfold open_fails, scoreboard_open. intros Hopen.
  destruct (open_res env <? 0); [|reflexivity]. cbn [andb] in Hopen.
  apply orb_false_iff in Hopen as [Hopen ->].
  apply orb_false_iff in Hopen as [Hopen ->].
  apply orb_false_iff in Hopen as [-> ->]. reflexivity.
Qed.

Lemma scoreboard_open_fail (env : poll_env) (p : process) :
  open_fails env = true ->
  open_res env < 0 /\
  scoreboard_open env p =
    Ret (open_res env) (set_log (log p ++ [Stderr (open_diagnostic env)]) p).
Proof.
  unfold open_fails, scoreboard_open, open_diagnostic, fprintf_stderr.
  intros Hopen. apply andb_true_iff in Hopen as [Hneg Hkind].
  split; [now apply Z.ltb_lt|]. rewrite Hneg.
  destruct (open_res env =? -1); [reflexivity|].
  destruct (open_res env =? UTIL_SCORE_ERR_BAD_MAGIC); [reflexivity|].
  destruct (open_res env =? UTIL_SCORE_ERR_OLDER_VERSION); [reflexivity|].
  destruct (open_res env =? UTIL_SCORE_ERR_NEWER_VERSION); [reflexivity|].
  discriminate.
Qed.

Lemma tally_bound (c : category) (scores : list pr_scoreboard_entry_t) :
  0 <= tally c scores <= Z.of_nat (length scores).
Proof.
  unfold tally. pose proof (length_filter
    (fun s => category_eqb (classify (sce_cmd s)) c = true) scores). lia.
Qed.

Lemma retained_bound (flt : Z) (scores : list pr_scoreboard_entry_t) :
  (length (retained_rows flt scores) <= length scores)%nat.
Proof.
  unfold retained_rows, retained_entries. rewrite length_map.
  apply length_filter.
Qed.

(** A poll that opens the scoreboard, seen from a process whose counters
    have just been cleared. *)
Lemma read_scoreboard_ok (env : poll_env) (p : process) :
  memory_ok env = true ->
  open_fails env = false ->
  Z.of_nat (length (entries env)) + chunklen <= 2 ^ 32 ->
  let rows := retained_rows (display_session p) (entries env) in
  exists array,
    read_scoreboard env (cleared p) =
      Ret tt {| delay := delay p;
                display_session := display_session p;
                ftp_nsessions := Z.of_nat (length rows);
                ftp_nuploads := tally Upload (entries env);
                ftp_ndownloads := tally Download (entries env);
                ftp_nidles := tally Idle (entries env);
                ftp_sessions := Some array;
                scoreboard_file := scoreboard_file p;
                log := log p ++ [UtilCloseScoreboard] |} /\
    take (length rows) array = map Some rows.
Proof.
  intros Hmem Hopen Hbound rows.
  unfold read_scoreboard, calloc_array. rewrite Hmem. cbn [non_null].
  set (p1 := set_ftp_sessions (Some (replicate (Z.to_nat chunklen) None)) (cleared p)).
  destruct (read_entries_spec env (entries env) Hmem p1 (replicate (Z.to_nat chunklen) None))
    as (array & Hloop & _ & Htake).
  - reflexivity.
  - split; [reflexivity|]. reflexivity.
  - repeat split; cbn; lia.
  - cbn. lia.
  - exists array. split.
    + run. fold p1. rewrite (scoreboard_open_ok env p1 Hopen).
      cbn [Z.ltb Z.compare]. rewrite Hloop. unfold scoreboard_close. run.
      cbn. unfold rows, retained_rows. rewrite length_map.
      pose proof (tally_bound Upload (entries env)).
      pose proof (tally_bound Download (entries env)).
      pose proof (tally_bound Idle (entries env)).
      unfold chunklen in Hbound.
      rewrite !uint32_id by lia. reflexivity.
    + replace (length rows)
        with (Z.to_nat (ftp_nsessions p1
                + Z.of_nat (length (retained_entries (display_session p1) (entries env))))).
      * rewrite Htake. reflexivity.
      * unfold rows, retained_rows. rewrite length_map. cbn. lia.
Qed.

Lemma sprintf_newline : sprintf newline [] = newline.
Proof. reflexivity. Qed.

Lemma sprintf_column_header : sprintf column_header [] = column_header.
Proof. reflexivity. Qed.

(** A whole poll that opens the scoreboard: the counters hold the tallies
    of all entries, [ftp_nsessions] is the number of retained rows, and the
    frame shows the retained rows in scoreboard order. *)
Lemma show_sessions_ok (env : poll_env) (p : process) :
  memory_ok env = true ->
  open_fails env = false ->
  Z.of_nat (length (entries env)) + chunklen <= 2 ^ 32 ->
  let rows := retained_rows (display_session p) (entries env) in
  exists array,
    show_sessions env p =
      Ret tt {| delay := delay p;
                display_session := display_session p;
                ftp_nsessions := Z.of_nat (length rows);
                ftp_nuploads := tally Upload (entries env);
                ftp_ndownloads := tally Download (entries env);
                ftp_nidles := tally Idle (entries env);
                ftp_sessions := Some array;
                scoreboard_file := scoreboard_file p;
                log := log p ++ UtilCloseScoreboard ::
                         frame (ctime_now env) (Z.of_nat (length rows))
                           (tally Download (entries env))
                           (tally Upload (entries env))
                           (tally Idle (entries env)) rows |} /\
    take (length rows) array = map Some rows.
Proof.
  intros Hmem Hopen Hbound rows.
  destruct (read_scoreboard_ok env p Hmem Hopen Hbound) as (array & Hread & Htake).
  fold rows in Hread, Htake. exists array. split; [|exact Htake].
  unfold show_sessions.
  rewrite (bind_ret _ _ _ _ _ (clear_counters_spec p)).
  rewrite (bind_ret _ _ _ _ _ Hread).
  unfold printw. run.
  cbn [ftp_nsessions ftp_ndownloads ftp_nuploads ftp_nidles ftp_sessions
       set_log log delay display_session scoreboard_file non_null andb].
  pose proof (tally_bound Upload (entries env)).
  pose proof (tally_bound Download (entries env)).
  pose proof (tally_bound Idle (entries env)).
  pose proof (retained_bound (display_session p) (entries env)) as Hrows.
  fold rows in Hrows. unfold chunklen in Hbound.
  rewrite sprintf_title, sprintf_newline, sprintf_column_header.
  rewrite sprintf_summary by lia.
  destruct (is_zero (Z.of_nat (length rows))) eqn:Hzero; cbn [negb].
  - apply Z.eqb_eq in Hzero. destruct rows as [|row rows']; [|cbn in Hzero; lia].
    cbn [set_log log]. unfold frame. cbn [map]. f_equal. f_equal.
    rewrite <- !app_assoc. reflexivity.
  - rewrite Nat2Z.id.
    erewrite (print_sessions_spec rows 0 _ array); [| reflexivity |].
    + cbn [set_log log]. unfold frame. f_equal. f_equal.
      rewrite <- !app_assoc. reflexivity.
    + intros j row Hj. cbn [Nat.add].
      rewrite <- (lookup_take_lt array (length rows)) by (eapply lookup_lt_Some; eauto).
      rewrite Htake, list_lookup_fmap, Hj. reflexivity.
Qed.

(** A poll on which the scoreboard cannot be opened: the diagnostic goes
    to stderr and the frame shows no session at all. *)
Lemma show_sessions_open_fails (env : poll_env) (p : process) :
  memory_ok env = true ->
  open_fails env = true ->
  show_sessions env p =
    Ret tt {| delay := delay p;
              display_session := display_session p;
              ftp_nsessions := 0;
              ftp_nuploads := 0;
              ftp_ndownloads := 0;
              ftp_nidles := 0;
              ftp_sessions := Some (replicate (Z.to_nat chunklen) None);
              scoreboard_file := scoreboard_file p;
              log := log p ++ Stderr (open_diagnostic env) ::
                       frame (ctime_now env) 0 0 0 0 [] |}.
Proof.
  intros Hmem Hopen. unfold show_sessions.
  rewrite (bind_ret _ _ _ _ _ (clear_counters_spec p)).
  assert (read_scoreboard env (cleared p) =
          Ret tt (set_log (log p ++ [Stderr (open_diagnostic env)])
                    (set_ftp_sessions (Some (replicate (Z.to_nat chunklen) None))
                       (cleared p)))) as Hread.
  { unfold read_scoreboard, calloc_array. rewrite Hmem. cbn [non_null]. run.
    destruct (scoreboard_open_fail env
                (set_ftp_sessions (Some (replicate (Z.to_nat chunklen) None)) (cleared p))
                Hopen) as [Hneg ->].
    apply Z.ltb_lt in Hneg. now rewrite Hneg. }
  rewrite (bind_ret _ _ _ _ _ Hread).
  unfold printw. run.
  cbn [ftp_nsessions ftp_ndownloads ftp_nuploads ftp_nidles ftp_sessions
       set_ftp_sessions cleared set_log log delay display_session
       scoreboard_file non_null andb is_zero Z.eqb negb].
  rewrite sprintf_title, sprintf_newline, sprintf_column_header.
  rewrite sprintf_summary by lia.
  unfold frame. cbn [map]. f_equal. f_equal. rewrite <- !app_assoc. reflexivity.
Qed.

Lemma filter_classes (f : category -> bool)
    (scores : list pr_scoreboard_entry_t) :
  map (fun s => classify (sce_cmd s))
      (filter (fun s => f (classify (sce_cmd s)) = true) scores)
  = filter (fun c => f c = true) (map (fun s => classify (sce_cmd s)) scores).
Proof.
  induction scores as [|score rest IH]; [reflexivity|].
  cbn [map]. rewrite !filter_cons. case_decide; cbn [map]; now rewrite IH.
Qed.

Lemma tally_classes (c : category) (scores : list pr_scoreboard_entry_t) :
  tally c scores =
  Z.of_nat (length (filter (fun k => category_eqb k c = true)
                           (map (fun s => classify (sce_cmd s)) scores))).
Proof.
  unfold tally. rewrite <- (filter_classes (fun k => category_eqb k c)).
  now rewrite length_map.
Qed.

(** C1, amended: with the display filter set to Upload only (as [-U]
    leaves it), a poll over a snapshot with exactly one idle, one
    downloading, one uploading and one listing session emits exactly two
    rows, those of the uploading and of the listing session, in
    scoreboard order (listing rows are not filterable), and the idle,
    download and upload counters each report 1.  ([ftp_nsessions] is the
    number of rows stored.) *)
Theorem C1_upload_only_poll (env : poll_env) (p : process) :
  memory_ok env = true ->
  open_fails env = false ->
  display_session p = FTPTOP_SHOW_UPLOAD ->
  map (fun s => classify (sce_cmd s)) (entries env)
    ≡ₚ [Idle; Download; Upload; Listing] ->
  let shown := retained_entries FTPTOP_SHOW_UPLOAD (entries env) in
  let rows := map (fun s => format_session (symbol (classify (sce_cmd s))) s) shown in
  map (fun s => classify (sce_cmd s)) shown ≡ₚ [Upload; Listing] /\
  length rows = 2%nat /\
  exists array q heading,
    show_sessions env p = Ret tt q /\
    counters q = (1, 1, 1) /\
    ftp_sessions q = Some array /\
    ftp_nsessions q = Z.of_nat (length rows) /\
    take (length rows) array = map Some rows /\
    log q = (log p ++ heading ++ map Printw rows ++ [Wrefresh])%list.
Proof.
  intros Hmem Hopen Hflt Hperm shown rows.
  assert (map (fun s => classify (sce_cmd s)) shown ≡ₚ [Upload; Listing]) as Hshown.
  { unfold shown, retained_entries.
    rewrite (filter_classes (retained FTPTOP_SHOW_UPLOAD)).
    rewrite Hperm. reflexivity. }
  split; [exact Hshown|].
  assert (length rows = 2%nat) as Hrows.
  { unfold rows. rewrite length_map.
    rewrite <- (length_map (fun s => classify (sce_cmd s))). now rewrite Hshown. }
  split; [exact Hrows|].
  assert (length (entries env) = 4%nat) as Hlen.
  { rewrite <- (length_map (fun s => classify (sce_cmd s))). now rewrite Hperm. }
  destruct (show_sessions_ok env p Hmem Hopen) as (array & Hshow & Htake).
  { rewrite Hlen. unfold chunklen. lia. }
  rewrite Hflt in Hshow, Htake. fold shown rows in Hshow, Htake.
  unfold retained_rows in Hshow, Htake. fold shown rows in Hshow, Htake.
  assert (tally Upload (entries env) = 1) as Hu
    by (rewrite tally_classes, Hperm; reflexivity).
  assert (tally Download (entries env) = 1) as Hd
    by (rewrite tally_classes, Hperm; reflexivity).
  assert (tally Idle (entries env) = 1) as Hi
    by (rewrite tally_classes, Hperm; reflexivity).
  rewrite Hu, Hd, Hi in Hshow.
  eexists array, _, (UtilCloseScoreboard :: _). split; [exact Hshow|].
  split; [reflexivity|]. split; [reflexivity|]. split; [reflexivity|].
  split; [exact Htake|]. cbn [log]. unfold frame. reflexivity.
Qed.

(** One turn of the loop in [main], case by case: the key is read only
    when [halfdelay] succeeded; [finish] runs only for a key that was
    read and is 'q' or 'Q'; otherwise the turn ends with a poll. *)
Lemma main_loop_turn_spec (turn : turn_env) (p : process) :
  let tenths := to_int (delay p * 10) in
  main_loop_turn turn p =
    if negb (halfdelay_rc tenths =? ERR) then
      if negb (key turn =? -1) && (tolower (key turn) =? char_q)
      then Exit 0 (set_log (log p ++ [Halfdelay tenths; Getch; Endwin]) p)
      else show_sessions (poll turn)
             (set_log (log p ++ [Halfdelay tenths; Getch]) p)
    else show_sessions (poll turn) (set_log (log p ++ [Halfdelay tenths]) p).
Proof.
  intros tenths. subst tenths. unfold main_loop_turn, finish. run.
  generalize (to_int (delay p * 10)). intros tenths.
  destruct (negb (halfdelay_rc tenths =? ERR)).
  - destruct (negb (key turn =? -1) && (tolower (key turn) =? char_q));
      cbn; rewrite <- ?app_assoc; reflexivity.
  - reflexivity.
Qed.

(** C6: when the scoreboard cannot be opened during a poll -- for each of
    the four error codes -- the failure is reported on stderr, the frame of
    that poll shows a summary of zero sessions and no rows, and the loop of
    [main] goes on with its next turn instead of ending the process. *)
Theorem C6_open_failure_is_not_fatal (env : poll_env) (p : process)
    (rest : list turn_env) :
  memory_ok env = true ->
  open_res env < 0 ->
  In (open_res env)
     [-1; UTIL_SCORE_ERR_BAD_MAGIC; UTIL_SCORE_ERR_OLDER_VERSION;
      UTIL_SCORE_ERR_NEWER_VERSION] ->
  (exists q,
     show_sessions env p = Ret tt q /\
     ftp_nsessions q = 0 /\
     counters q = (0, 0, 0) /\
     log q = (log p ++ Stderr (open_diagnostic env)
                :: frame (ctime_now env) 0 0 0 0 [])%list) /\
  (exists q' waited,
     main_loop_turn {| key := ERR; poll := env |} p = Ret tt q' /\
     main_loop ({| key := ERR; poll := env |} :: rest) p = main_loop rest q' /\
     ftp_nsessions q' = 0 /\
     ~ In Endwin waited /\
     log q' = (log p ++ waited ++ Stderr (open_diagnostic env)
                 :: frame (ctime_now env) 0 0 0 0 [])%list).
Proof.
  intros Hmem Hneg Hkind.
  assert (open_fails env = true) as Hopen.
  { unfold open_fails. apply andb_true_iff. split; [now apply Z.ltb_lt|].
    rewrite !orb_true_iff, !Z.eqb_eq. cbn [In] in Hkind. intuition congruence. }
  split.
  - eexists. split; [apply (show_sessions_open_fails env p Hmem Hopen)|].
    repeat split.
  - pose proof (main_loop_turn_spec {| key := ERR; poll := env |} p) as Hturn.
    cbn [key poll] in Hturn. cbn beta zeta in Hturn.
    set (tenths := to_int (delay p * 10)) in *.
    change (negb (ERR =? -1) && (tolower ERR =? char_q)) with false in Hturn.
    assert (exists waited,
              ~ In Endwin waited /\
              main_loop_turn {| key := ERR; poll := env |} p =
                show_sessions env (set_log (log p ++ waited) p))
      as (waited & Hquiet & Hturn').
    { destruct (negb (halfdelay_rc tenths =? ERR)).
      - exists [Halfdelay tenths; Getch]. split; [|exact Hturn].
        cbn [In]. intuition discriminate.
      - exists [Halfdelay tenths]. split; [|exact Hturn].
        cbn [In]. intuition discriminate. }
    rewrite (show_sessions_open_fails env _ Hmem Hopen) in Hturn'.
    eexists _, waited. split; [exact Hturn'|]. split.
    + cbn [main_loop]. now rewrite (bind_ret _ _ _ _ _ Hturn').
    + cbn [ftp_nsessions log set_log]. repeat split; [exact Hquiet|].
      now rewrite <- app_assoc.
Qed.

End Poll.

Section Frames.

Lemma tame_ret {A} (a : A) : tame (mret a).
Proof. split; intros; reflexivity. Qed.

Lemma tame_exit {A} (status : Z) : tame (@exit A status).
Proof. split; intros; reflexivity. Qed.

Lemma tame_fault {A} : tame (@fault A).
Proof. split; intros; reflexivity. Qed.

Lemma tame_get {A} (field : process -> A) :
  (forall l p, field (set_log l p) = field p) -> tame (get field).
Proof.
  intros Hfield. split; intros; [|reflexivity].
  unfold get. cbn. now rewrite Hfield.
Qed.

Lemma tame_modify (f : process -> process) :
  (forall l p, f (set_log l p) = set_log l (f p)) ->
  (forall p, log (f p) = log p) ->
  (forall p, config (f p) = config p) ->
  tame (modify f).
Proof.
  intros Hcomm Hlog Hconfig. split; intros; [|apply Hconfig].
  unfold modify. cbn. rewrite Hcomm, Hlog. reflexivity.
Qed.

Lemma tame_emit (e : event) : tame (emit e).
Proof.
  split; intros; [|reflexivity]. unfold emit, modify. cbn.
  now rewrite <- app_assoc.
Qed.

Lemma tame_bind {A B} (m : M A) (k : A -> M B) :
  tame m -> (forall a, tame (k a)) -> tame (m ≫= k).
Proof.
  intros [Hm Hm'] Hk. split; intros p; [intros l|]; unfold mbind, M_bind.
  - rewrite Hm. specialize (Hm' p).
    destruct (m p) as [a q|status q|q]; cbn [shift]; [|reflexivity..].
    apply Hk.
  - specialize (Hm' p).
    destruct (m p) as [a q|status q|q]; cbn [final] in *; [|assumption..].
    destruct (Hk a) as [_ Hk']. now rewrite Hk'.
Qed.

End Frames.

Create HintDb tame discriminated.
#[export] Hint Resolve tame_ret tame_exit tame_fault tame_emit : tame.

(** Decompose a command along its syntax. *)
Ltac tame_step :=
  lazymatch goal with
  | |- tame (mbind _ _) => apply tame_bind; [|intros ?]
  | |- tame (if ?b then _ else _) => destruct b
  | |- tame (match ?x with _ => _ end) => destruct x
  | |- tame (get _) => apply tame_get; reflexivity
  | |- tame (modify _) => apply tame_modify; reflexivity
  | |- tame _ => solve [eauto with tame]
  end.

Ltac tame := cbv zeta; repeat tame_step.

Section TameProgram.

Lemma tame_clear_counters : tame clear_counters.
Proof. unfold clear_counters. tame. Qed.

Lemma tame_printw (fmt : string) (args : list varg) : tame (printw fmt args).
Proof. unfold printw. tame. Qed.

Lemma tame_fprintf_stderr (fmt : string) (args : list varg) :
  tame (fprintf_stderr fmt args).
Proof. unfold fprintf_stderr. tame. Qed.

Lemma tame_scoreboard_close : tame scoreboard_close.
Proof. unfold scoreboard_close. tame. Qed.

Lemma tame_displayed (flag : Z) : tame (displayed flag).
Proof. unfold displayed. tame. Qed.

Hint Resolve tame_clear_counters tame_printw tame_fprintf_stderr
  tame_scoreboard_close tame_displayed : tame.

Lemma tame_determine_status (score : pr_scoreboard_entry_t) :
  tame (determine_status score).
Proof. unfold determine_status. tame. Qed.

Lemma tame_store_session (env : poll_env) (status : string)
    (score : pr_scoreboard_entry_t) :
  tame (store_session env status score).
Proof.
  unfold store_session. generalize (format_session status score). intros buf.
  tame.
Qed.

Hint Resolve tame_determine_status tame_store_session : tame.

Lemma tame_read_entry (env : poll_env) (score : pr_scoreboard_entry_t) :
  tame (read_entry env score).
Proof. unfold read_entry. tame. Qed.

Hint Resolve tame_read_entry : tame.

Lemma tame_read_entries (env : poll_env) (scores : list pr_scoreboard_entry_t) :
  tame (read_entries env scores).
Proof. induction scores as [|score rest IH]; cbn [read_entries]; tame. Qed.

Lemma tame_print_sessions (count i : nat) : tame (print_sessions i count).
Proof.
  revert i. induction count as [|count IH]; intros i; cbn [print_sessions]; tame.
Qed.

Hint Resolve tame_read_entries tame_print_sessions : tame.

Context `{utils_h}.

Lemma tame_scoreboard_open (env : poll_env) : tame (scoreboard_open env).
Proof. unfold scoreboard_open. tame. Qed.

Hint Resolve tame_scoreboard_open : tame.

Lemma tame_read_scoreboard (env : poll_env) : tame (read_scoreboard env).
Proof. unfold read_scoreboard. tame. Qed.

Hint Resolve tame_read_scoreboard : tame.

Lemma tame_show_sessions (env : poll_env) : tame (show_sessions env).
Proof. unfold show_sessions. tame. Qed.

(** [read_scoreboard] overwrites the row array before it reads it. *)
Lemma read_scoreboard_overwrites {A} (env : poll_env) (k : unit -> M A)
    (p : process) :
  (read_scoreboard env ≫= k) p =
  (read_scoreboard env ≫= k) (set_ftp_sessions None p).
Proof. reflexivity. Qed.

(** A poll does not depend on what earlier polls left in the counters and
    in the row array. *)
Lemma show_sessions_base (env : poll_env) (p : process) :
  show_sessions env p = show_sessions env (base p).
Proof.
  unfold show_sessions.
  rewrite !(bind_ret _ _ _ _ _ (clear_counters_spec _)).
  rewrite (read_scoreboard_overwrites env _ (cleared p)).
  rewrite (read_scoreboard_overwrites env _ (cleared (base p))).
  reflexivity.
Qed.

Lemma shift_ret_inv {A} (l : list event) (r : result A) (a : A) (q : process) :
  shift l r = Ret a q ->
  exists q0, r = Ret a q0 /\ q = set_log (l ++ log q0) q0.
Proof.
  destruct r as [a0 q0|status q0|q0]; cbn [shift]; intros Heq; simplify_eq.
  now exists q0.
Qed.

(** C8: running the poll twice over the same unchanged snapshot paints
    the same frame both times, byte for byte -- the same formatted rows in
    the same order -- and leaves the same counter values and the same row
    array. *)
Theorem C8_poll_is_repeatable (env : poll_env) (p p1 : process) :
  show_sessions env p = Ret tt p1 ->
  exists p2 painted,
    show_sessions env p1 = Ret tt p2 /\
    log p1 = (log p ++ painted)%list /\
    log p2 = (log p1 ++ painted)%list /\
    ftp_sessions p2 = ftp_sessions p1 /\
    ftp_nsessions p2 = ftp_nsessions p1 /\
    counters p2 = counters p1.
Proof.
  intros Hfirst.
  destruct (tame_show_sessions env) as [Hframe Hkeeps].
  pose proof (Hkeeps p) as Hconfig. rewrite Hfirst in Hconfig.
  cbn [final] in Hconfig.
  set (b := set_log [] (base p)).
  assert (forall q, config q = config p ->
            show_sessions env q = shift (log q) (show_sessions env b)) as Hshift.
  { intros q Hq. rewrite show_sessions_base, <- Hframe. f_equal.
    unfold b, base, config in *. cbn. rewrite app_nil_r.
    injection Hq as -> -> ->. reflexivity. }
  rewrite (Hshift p eq_refl) in Hfirst.
  apply shift_ret_inv in Hfirst as (b1 & Hb & ->).
  exists (set_log (log (set_log (log p ++ log b1) b1) ++ log b1) b1), (log b1).
  split; [|repeat split].
  rewrite (Hshift _ Hconfig), Hb. reflexivity.
Qed.

End TameProgram.

Section Loop.

Context `{utils_h}.

(** With a refresh delay whose tenths [halfdelay] accepts (1 to 25
    seconds), a pressed 'q' or 'Q' ends the process: [endwin] is called
    once and the exit status is 0. *)
Lemma quit_key_terminates (turn : turn_env) (p : process) :
  1 <= delay p <= 25 ->
  tolower (key turn) = char_q ->
  main_loop_turn turn p =
    Exit 0 (set_log (log p ++ [Halfdelay (delay p * 10); Getch; Endwin]) p).
Proof.
  intros Hdelay Hkey. rewrite main_loop_turn_spec. cbv zeta.
  rewrite to_int_id by (unfold in_int, INT_MIN, INT_MAX; lia).
  assert (halfdelay_rc (delay p * 10) = OK) as ->.
  { unfold halfdelay_rc.
    destruct (1 <=? delay p * 10) eqn:H1; [|lia].
    destruct (delay p * 10 <=? 255) eqn:H2; [reflexivity|lia]. }
  cbn [OK ERR Z.eqb negb]. rewrite Hkey.
  assert ((key turn =? -1) = false) as ->.
  { apply Z.eqb_neq. intros Heq. rewrite Heq in Hkey. discriminate. }
  reflexivity.
Qed.

(** C4, where the program departs from it: with a refresh delay of 0,
    [halfdelay(0)] fails, so the loop never calls [getch]; a 'q' or 'Q'
    pressed during the wait is not read, [finish] is not called, and the
    turn goes straight on to the next poll. *)
Theorem C4_quit_key_unread_at_delay_0 (turn : turn_env) (p : process) :
  delay p = 0 ->
  tolower (key turn) = char_q ->
  main_loop_turn turn p =
    show_sessions (poll turn) (set_log (log p ++ [Halfdelay 0]) p).
Proof.
  intros Hdelay _. rewrite main_loop_turn_spec. cbv zeta. now rewrite Hdelay.
Qed.

End Loop.

Section Scenarios.
Import Scenario.

Local Existing Instance codes.

Lemma C1_counterexample :
  exists q array,
    show_sessions (poll_of 0 snapshot) upload_only = Ret tt q /\
    ftp_sessions q = Some array /\
    take (Z.to_nat (ftp_nsessions q)) array = [Some upload_row; Some listing_row] /\
    counters q = (1, 1, 1) /\
    In (Printw (summary_line 2 1 1 1)) (log q) /\
    ~ (take (Z.to_nat (ftp_nsessions q)) array = [Some upload_row] /\
       ftp_nsessions q = 4).
Proof.
  eexists _, _. split; [vm_compute; reflexivity|].
  split; [reflexivity|]. split; [reflexivity|]. split; [reflexivity|]. split.
  - vm_compute. tauto.
  - cbn [ftp_nsessions]. intros [_ Htotal]. discriminate.
Qed.

Lemma C1_witness :
  memory_ok (poll_of 0 snapshot) = true /\
  open_fails (poll_of 0 snapshot) = false /\
  display_session upload_only = FTPTOP_SHOW_UPLOAD /\
  map (fun s => classify (sce_cmd s)) (entries (poll_of 0 snapshot))
    ≡ₚ [Idle; Download; Upload; Listing] /\
  let shown := retained_entries FTPTOP_SHOW_UPLOAD (entries (poll_of 0 snapshot)) in
  let rows := map (fun s => format_session (symbol (classify (sce_cmd s))) s) shown in
  map (fun s => classify (sce_cmd s)) shown ≡ₚ [Upload; Listing] /\
  length rows = 2%nat /\
  exists array q heading,
    show_sessions (poll_of 0 snapshot) upload_only = Ret tt q /\
    counters q = (1, 1, 1) /\
    ftp_sessions q = Some array /\
    ftp_nsessions q = Z.of_nat (length rows) /\
    take (length rows) array = map Some rows /\
    log q = (log upload_only ++ heading ++ map Printw rows ++ [Wrefresh])%list.
Proof.
  assert (map (fun s => classify (sce_cmd s)) (entries (poll_of 0 snapshot))
            ≡ₚ [Idle; Download; Upload; Listing]) as Hperm by reflexivity.
  split; [reflexivity|]. split; [reflexivity|]. split; [reflexivity|].
  split; [exact Hperm|].
  exact (C1_upload_only_poll (poll_of 0 snapshot) upload_only
           eq_refl eq_refl eq_refl Hperm).
Defined.

Lemma C4_witness :
  delay no_delay = 0 /\
  tolower 113 = char_q /\
  main_loop_turn {| key := 113; poll := poll_of 0 snapshot |} no_delay =
    show_sessions (poll_of 0 snapshot)
      (set_log (log no_delay ++ [Halfdelay 0]) no_delay).
Proof.
  split; [reflexivity|]. split; [reflexivity|].
  exact (C4_quit_key_unread_at_delay_0
           {| key := 113; poll := poll_of 0 snapshot |} no_delay eq_refl eq_refl).
Defined.

(** [ftptop -d 0] with 'q' pressed during the first wait and 'Q' during
    the second: after two turns the process is still running, and neither
    [getch] nor [endwin] has been called. *)
Example quit_key_at_delay_0 :
  exists q,
    main {| opts := [option_ "d" "0"]; stat_res := 0; stat_strerror := "";
            first_poll := poll_of 0 snapshot;
            turns := [ {| key := 113; poll := poll_of 0 snapshot |};
                       {| key := 81; poll := poll_of 0 snapshot |} ] |}
         at_startup = Ret tt q /\
    delay q = 0 /\
    ~ In Getch (log q) /\ ~ In Endwin (log q).
Proof.
  eexists. split; [vm_compute; reflexivity|]. split; [reflexivity|].
  split; vm_compute; (intuition discriminate).
Qed.

Lemma C6_witness :
  memory_ok (poll_of (-3) snapshot) = true /\
  open_res (poll_of (-3) snapshot) < 0 /\
  In (open_res (poll_of (-3) snapshot))
     [-1; UTIL_SCORE_ERR_BAD_MAGIC; UTIL_SCORE_ERR_OLDER_VERSION;
      UTIL_SCORE_ERR_NEWER_VERSION] /\
  exists q,
    show_sessions (poll_of (-3) snapshot) at_startup = Ret tt q /\
    ftp_nsessions q = 0 /\
    counters q = (0, 0, 0) /\
    log q = (log at_startup ++ Stderr (open_diagnostic (poll_of (-3) snapshot))
               :: frame (ctime_now (poll_of (-3) snapshot)) 0 0 0 0 [])%list.
Proof.
  assert (open_res (poll_of (-3) snapshot) < 0) as Hneg by (cbn; lia).
  assert (In (open_res (poll_of (-3) snapshot))
             [-1; UTIL_SCORE_ERR_BAD_MAGIC; UTIL_SCORE_ERR_OLDER_VERSION;
              UTIL_SCORE_ERR_NEWER_VERSION]) as Hkind by (cbn; tauto).
  split; [reflexivity|]. split; [exact Hneg|]. split; [exact Hkind|].
  exact (proj1 (C6_open_failure_is_not_fatal (poll_of (-3) snapshot)
                  at_startup [] eq_refl Hneg Hkind)).
Defined.

Lemma C8_witness :
  let p1 := final (show_sessions (poll_of 0 snapshot) upload_only) in
  show_sessions (poll_of 0 snapshot) upload_only = Ret tt p1 /\
  exists p2 painted,
    show_sessions (poll_of 0 snapshot) p1 = Ret tt p2 /\
    log p1 = (log upload_only ++ painted)%list /\
    log p2 = (log p1 ++ painted)%list /\
    ftp_sessions p2 = ftp_sessions p1 /\
    ftp_nsessions p2 = ftp_nsessions p1 /\
    counters p2 = counters p1.
Proof.
  intros p1.
  assert (show_sessions (poll_of 0 snapshot) upload_only = Ret tt p1) as Hfirst
    by (vm_compute; reflexivity).
  split; [exact Hfirst|].
  exact (C8_poll_is_repeatable (poll_of 0 snapshot) upload_only p1 Hfirst).
Defined.

Lemma C9_witness :
  let score := session 102 "RETR pub/releases/proftpd.tar.gz" in
  let p := set_ftp_sessions (Some [None; None; None]) at_startup in
  let q := final (read_entry (poll_of 0 snapshot) score p) in
  determine_status score p = Ret ("D", false) (count Download p) /\
  read_entry (poll_of 0 snapshot) score p = Ret tt q /\
  in_int (sce_pid score) /\
  (String.length (row_layout "D" score) <= 1023)%nat /\
  String.length "D" = 1%nat /\
  format_session "D" score = row_layout "D" score /\
  exists array,
    ftp_sessions q = Some array /\
    array !! Z.to_nat (ftp_nsessions p) = Some (Some (row_layout "D" score)).
Proof.
  intros score p q.
  assert (determine_status score p = Ret ("D", false) (count Download p)) as Hd
    by (vm_compute; reflexivity).
  assert (read_entry (poll_of 0 snapshot) score p = Ret tt q) as Hr
    by (vm_compute; reflexivity).
  assert (in_int (sce_pid score)) as Hpid
    by (unfold in_int, INT_MIN, INT_MAX; cbn; lia).
  assert (String.length (row_layout "D" score) <= 1023)%nat as Hfits
    by (apply Nat.leb_le; vm_compute; reflexivity).
  split; [exact Hd|]. split; [exact Hr|]. split; [exact Hpid|].
  split; [exact Hfits|].
  exact (C9_row_layout (poll_of 0 snapshot) score p _ q "D" Hd Hr Hpid Hfits).
Defined.

End Scenarios.

(** * Further properties of the option parser *)

Section MoreOptions.

(** One option, case by case on what it may change. *)
Lemma process_opt_ret (o : getopt_result) (p q : process) :
  process_opt o p = Ret tt q ->
  log q = log p /\
  poll_state q = poll_state p /\
  (delay q = delay p \/ (0 <= delay q /\ in_int (delay q))) /\
  (acted_upon (optc o) = false -> q = p).
Proof.
  destruct o as [c arg msg]. unfold process_opt, acted_upon.
  cbn [optc optarg]. pose proof (to_int_range (strtol10 arg)) as Hrange.
  fold (atoi arg) in Hrange. revert Hrange. generalize (atoi arg). intros n Hn.
  unfold usage, show_version, util_set_scoreboard, fprintf_stdout, fprintf_stderr.
  destruct c as [b0 b1 b2 b3 b4 b5 b6 b7].
  destruct b0, b1, b2, b3, b4, b5, b6, b7; run;
    cbn [existsb Ascii.eqb Bool.eqb orb andb];
    try (intros Hret; simplify_eq; repeat split; auto; discriminate).
  cbn [delay set_delay]. destruct (n <? 0) eqn:Hneg; intros Hret; simplify_eq.
  apply Z.ltb_ge in Hneg. repeat split; auto; discriminate.
Qed.

(** An option the [switch] has no case for, or the empty cases. *)
Lemma process_opt_ignored (o : getopt_result) (p : process) :
  acted_upon (optc o) = false -> process_opt o p = Ret tt p.
Proof.
  destruct o as [c arg msg]. unfold process_opt, acted_upon. cbn [optc optarg].
  destruct c as [b0 b1 b2 b3 b4 b5 b6 b7].
  destruct b0, b1, b2, b3, b4, b5, b6, b7;
    cbn [existsb Ascii.eqb Bool.eqb orb andb]; intros Ho;
    try discriminate Ho; reflexivity.
Qed.

(** [getopt] is silent over options of the option string. *)
Lemma getopt_reports_known (opts : list getopt_result) :
  Forall (fun o => optc o <> "?"%char) opts -> getopt_reports opts = [].
Proof.
  induction 1 as [|o opts Ho Hknown IH]; [reflexivity|].
  cbn [getopt_reports flat_map]. fold (getopt_reports opts). rewrite IH.
  unfold getopt_report. destruct (Ascii.eqb_spec (optc o) "?"); [contradiction|].
  reflexivity.
Qed.

(** X2: an option that [getopt] rejects (['?'], the only value outside
    the cases of the [switch] that it returns) is not fatal: the parser
    returns, the process is as it was, and all that was written is the
    diagnostic of [getopt] itself for each rejected option. *)
Theorem X2_unknown_options_ignored (opts : list getopt_result) (p : process) :
  Forall (fun o => acted_upon (optc o) = false) opts ->
  process_opts opts p = Ret tt (set_log (log p ++ getopt_reports opts) p).
Proof.
  intros Hopts. revert p. induction Hopts as [|o opts Ho Hopts IH]; intros p.
  - cbn [process_opts getopt_reports flat_map]. now rewrite set_log_same.
  - rewrite process_opts_cons.
    rewrite (bind_ret _ _ _ _ _ (process_opt_ignored o (reported o p) Ho)).
    rewrite IH. unfold reported. rewrite set_log_twice. reflexivity.
Qed.

Lemma X2_witness :
  Forall (fun o => acted_upon (optc o) = false) [ Scenario.unknown_x ] /\
  process_opts [ Scenario.unknown_x ] (startup "scoreboard") =
    Ret tt (set_log [Stderr ("ftptop: invalid option -- 'x'" ++ newline)]
              (startup "scoreboard")).
Proof.
  assert (Forall (fun o => acted_upon (optc o) = false) [ Scenario.unknown_x ])
    as H by (repeat constructor).
  split; [exact H|].
  exact (X2_unknown_options_ignored _ (startup "scoreboard") H).
Defined.

(** X3: a run of the option parser that returns has written nothing of
    its own, to stdout or stderr: the output grows by the diagnostics of
    [getopt] for the options it rejected and by nothing else (by nothing
    at all when there is none), and the row count, the category counters
    and the row array are left alone: options only set the run
    configuration. *)
Theorem X3_options_only_configure (opts : list getopt_result) (p q : process) :
  process_opts opts p = Ret tt q ->
  log q = (log p ++ getopt_reports opts)%list /\
  poll_state q = poll_state p /\
  (Forall (fun o => optc o <> "?"%char) opts -> log q = log p).
Proof.
  intros Hrun.
  assert (log q = (log p ++ getopt_reports opts)%list /\
          poll_state q = poll_state p)
    as [Hlog Hpoll].
  { revert p Hrun. induction opts as [|o opts IH]; intros p Hrun.
    - cbn [process_opts] in Hrun. run. simplify_eq.
      cbn [getopt_reports flat_map]. now rewrite app_nil_r.
    - apply process_opts_cons_ret in Hrun as (p' & Hstep & Hrest).
      apply process_opt_ret in Hstep as (Hlog & Hpoll & _).
      change (poll_state (reported o p)) with (poll_state p) in Hpoll.
      apply IH in Hrest as [Hlog' Hpoll']. split; [|congruence].
      rewrite Hlog', Hlog. unfold reported. cbn [log set_log].
      now rewrite <- app_assoc. }
  split; [exact Hlog|]. split; [exact Hpoll|].
  intros Hknown. rewrite Hlog, (getopt_reports_known opts Hknown).
  apply app_nil_r.
Qed.

Lemma X3_witness :
  let opts := [ {| optc := "D"; optarg := ""; diagnostic := "" |};
                Scenario.unknown_x;
                {| optc := "f"; optarg := "/tmp/scoreboard"; diagnostic := "" |};
                {| optc := "d"; optarg := "5"; diagnostic := "" |} ] in
  let q := final (process_opts opts (startup "scoreboard")) in
  process_opts opts (startup "scoreboard") = Ret tt q /\
  log q = [Stderr ("ftptop: invalid option -- 'x'" ++ newline)] /\
  poll_state q = poll_state (startup "scoreboard").
Proof.
  intros opts q.
  assert (process_opts opts (startup "scoreboard") = Ret tt q) as H
    by reflexivity.
  split; [exact H|].
  destruct (X3_options_only_configure opts (startup "scoreboard") q H)
    as (Hlog & Hpoll & _).
  split; [exact Hlog|exact Hpoll].
Defined.

(** X4: the refresh delay never becomes negative: from a process whose
    delay is a non-negative [int], every run of the option parser that
    returns leaves a non-negative [int] delay (a negative [-d] argument
    ends the process instead). *)
Theorem X4_delay_stays_non_negative (opts : list getopt_result) (p q : process) :
  0 <= delay p /\ in_int (delay p) ->
  process_opts opts p = Ret tt q ->
  0 <= delay q /\ in_int (delay q).
Proof.
  revert p. induction opts as [|o opts IH]; intros p Hp Hrun.
  - cbn [process_opts] in Hrun. run. now simplify_eq.
  - apply process_opts_cons_ret in Hrun as (p' & Hstep & Hrest).
    apply process_opt_ret in Hstep as (_ & _ & [Hsame|Hset] & _).
    + apply (IH p'); [now rewrite Hsame|exact Hrest].
    + apply (IH p'); assumption.
Qed.

Lemma X4_witness :
  let opts := [ {| optc := "d"; optarg := "0"; diagnostic := "" |};
                {| optc := "d"; optarg := "12 seconds"; diagnostic := "" |} ] in
  let q := final (process_opts opts (startup "scoreboard")) in
  (0 <= delay (startup "scoreboard") /\ in_int (delay (startup "scoreboard"))) /\
  process_opts opts (startup "scoreboard") = Ret tt q /\
  0 <= delay q /\ in_int (delay q).
Proof.
  assert (0 <= 2 /\ in_int 2)
    as Hp by (unfold in_int, INT_MIN, INT_MAX; lia).
  intros opts q.
  assert (process_opts opts (startup "scoreboard") = Ret tt q) as H
    by reflexivity.
  split; [exact Hp|]. split; [exact H|].
  exact (X4_delay_stays_non_negative opts (startup "scoreboard") q Hp H).
Defined.

Lemma without_idle_small (flt : Z) :
  0 <= flt <= FTPTOP_SHOW_ALL -> 0 <= without_idle flt <= FTPTOP_SHOW_ALL.
Proof.
  change FTPTOP_SHOW_ALL with 7. intros Hflt.
  assert (flt = 0 \/ flt = 1 \/ flt = 2 \/ flt = 3 \/ flt = 4 \/ flt = 5
          \/ flt = 6 \/ flt = 7) as Hcases by lia.
  destruct Hcases as [->|[->|[->|[->|[->|[->|[->| ->]]]]]]];
    split; apply Z.leb_le; reflexivity.
Qed.

Lemma exclusive_filter_small (c : ascii) (bit : Z) :
  exclusive_filter c = Some bit -> 0 <= bit <= FTPTOP_SHOW_ALL.
Proof.
  unfold exclusive_filter.
  destruct (Ascii.eqb c "D");
    [intros [= <-]; split; apply Z.leb_le; reflexivity|].
  destruct (Ascii.eqb c "I");
    [intros [= <-]; split; apply Z.leb_le; reflexivity|].
  destruct (Ascii.eqb c "U");
    [intros [= <-]; split; apply Z.leb_le; reflexivity|]. discriminate.
Qed.

(** X5: the display filter never leaves the three category bits: from a
    filter within [FTPTOP_SHOW_ALL], every run of the option parser that
    returns leaves a filter within [FTPTOP_SHOW_ALL]. *)
Theorem X5_filter_stays_within_show_all (opts : list getopt_result)
    (p q : process) :
  0 <= display_session p <= FTPTOP_SHOW_ALL ->
  process_opts opts p = Ret tt q ->
  0 <= display_session q <= FTPTOP_SHOW_ALL.
Proof.
  revert p. induction opts as [|o opts IH]; intros p Hp Hrun.
  - cbn [process_opts] in Hrun. run. now simplify_eq.
  - apply process_opts_cons_ret in Hrun as (p' & Hstep & Hrest).
    apply (IH p'); [|exact Hrest].
    rewrite (process_opt_display o (reported o p) p' Hstep).
    change (display_session (reported o p)) with (display_session p).
    destruct (exclusive_filter (optc o)) as [bit|] eqn:Hbit.
    + now apply exclusive_filter_small in Hbit.
    + destruct (is_exclude_idle o); [now apply without_idle_small|exact Hp].
Qed.

Lemma X5_witness :
  let opts := [ {| optc := "I"; optarg := ""; diagnostic := "" |}; {| optc := "i"; optarg := ""; diagnostic := "" |} ] in
  let q := final (process_opts opts (startup "scoreboard")) in
  0 <= display_session (startup "scoreboard") <= FTPTOP_SHOW_ALL /\
  process_opts opts (startup "scoreboard") = Ret tt q /\
  0 <= display_session q <= FTPTOP_SHOW_ALL.
Proof.
  intros opts q.
  assert (0 <= display_session (startup "scoreboard") <= FTPTOP_SHOW_ALL)
    as Hp by (split; apply Z.leb_le; reflexivity).
  assert (process_opts opts (startup "scoreboard") = Ret tt q) as H
    by reflexivity.
  split; [exact Hp|]. split; [exact H|].
  exact (X5_filter_stays_within_show_all opts (startup "scoreboard") q Hp H).
Defined.

Lemma process_opts_after (pre post : list getopt_result) (p q : process) :
  process_opts pre p = Ret tt q ->
  process_opts (pre ++ post) p = process_opts post q.
Proof.
  revert p. induction pre as [|o pre IH]; intros p Hpre.
  - cbn [process_opts] in Hpre. run. now simplify_eq.
  - apply process_opts_cons_ret in Hpre as (p' & Hstep & Hrest).
    rewrite <- app_comm_cons. rewrite process_opts_cons.
    rewrite (bind_ret _ _ _ _ _ Hstep). now apply IH.
Qed.

(** X6: [-h] and [-V] end the run at once with status 0, wherever they
    stand: the usage text, respectively the version line, goes to stdout,
    they write nothing to stderr, and the options after them are never
    looked at (not even an illegal [-d]). *)
Theorem X6_help_and_version_exit (pre post : list getopt_result)
    (o : getopt_result) (p q : process) :
  process_opts pre p = Ret tt q ->
  (optc o = "h"%char ->
   process_opts (pre ++ o :: post) p =
     Exit 0 (set_log (log q ++ usage_text) q)) /\
  (optc o = "V"%char ->
   process_opts (pre ++ o :: post) p =
     Exit 0 (set_log (log q ++ [Stdout (FTPTOP_VERSION ++ newline)]) q)).
Proof.
  intros Hpre. rewrite (process_opts_after pre (o :: post) p q Hpre).
  destruct o as [c arg msg]. cbn [optc].
  split; intros ->; rewrite process_opts_known by reflexivity;
    unfold process_opt; cbn [optc].
  - unfold usage, fprintf_stdout, usage_text. run. cbn [log set_log].
    rewrite <- !app_assoc. reflexivity.
  - unfold show_version, fprintf_stdout. run. reflexivity.
Qed.

Lemma X6_witness :
  let pre := [ {| optc := "U"; optarg := ""; diagnostic := "" |} ] in
  let post := [ {| optc := "d"; optarg := "-1"; diagnostic := "" |} ] in
  let q := set_display_session FTPTOP_SHOW_UPLOAD (startup "scoreboard") in
  process_opts pre (startup "scoreboard") = Ret tt q /\
  process_opts (pre ++ {| optc := "h"; optarg := ""; diagnostic := "" |} :: post)
    (startup "scoreboard") = Exit 0 (set_log (log q ++ usage_text) q).
Proof.
  intros pre post q.
  assert (process_opts pre (startup "scoreboard") = Ret tt q) as H by reflexivity.
  split; [exact H|].
  exact (proj1 (X6_help_and_version_exit pre post {| optc := "h"; optarg := ""; diagnostic := "" |}
                  (startup "scoreboard") q H) eq_refl).
Defined.

Lemma digits_acc_tail (u : Decimal.uint) (tail : string) (acc : Z) :
  starts_with_digit tail = false ->
  digits_acc (NilEmpty.string_of_uint u ++ tail) acc =
  digits_acc (NilEmpty.string_of_uint u) acc.
Proof.
  intros Htail. revert acc.
  induction u as [|u IH|u IH|u IH|u IH|u IH|u IH|u IH|u IH|u IH|u IH];
    intros acc; cbn [NilEmpty.string_of_uint];
    [rewrite append_nil; now apply digits_acc_no_digit|..];
    rewrite append_cons;
    match goal with
    | |- digits_acc (String ?c ?s) ?a = digits_acc (String ?c ?t) ?a =>
        change (digits_acc s (a * 10 + digit_val c)
                = digits_acc t (a * 10 + digit_val c))
    end;
    apply IH.
Qed.

(** For a rendered number followed by text that does not begin with a
    digit, [atoi] reads the number and stops. *)
Lemma atoi_tail (n : Z) (tail : string) :
  starts_with_digit tail = false ->
  atoi (dec n ++ tail) = atoi (dec n).
Proof.
  intros Htail. unfold atoi, dec. f_equal. destruct n as [|q|q].
  - cbn [Z.to_int NilEmpty.string_of_int NilEmpty.string_of_uint].
    rewrite append_cons, append_nil. unfold strtol10. cbn [skip_space].
    change (isspace "0") with false. cbn iota.
    change (Ascii.eqb "0" "-") with false. change (Ascii.eqb "0" "+") with false.
    cbn iota. f_equal.
    change (digits_acc (String "0" tail) 0) with (digits_acc tail 0).
    now rewrite digits_acc_no_digit.
  - cbn [Z.to_int NilEmpty.string_of_int].
    pose proof (Unsigned.to_uint_nonnil q) as Hnil.
    pose proof (digits_acc_tail (Pos.to_uint q) tail 0 Htail) as Hdigits.
    destruct (Pos.to_uint q); [congruence|..];
      cbn [NilEmpty.string_of_uint] in *; rewrite append_cons in *;
      unfold strtol10; cbn [skip_space];
      match goal with
      | |- context [isspace ?c] => change (isspace c) with false
      end; cbn iota;
      match goal with
      | |- context [Ascii.eqb ?c "-"] =>
          change (Ascii.eqb c "-") with false;
          change (Ascii.eqb c "+") with false
      end; cbn iota; now rewrite Hdigits.
  - cbn [Z.to_int NilEmpty.string_of_int]. rewrite append_cons.
    unfold strtol10. cbn [skip_space].
    change (isspace "-") with false. cbn iota.
    change (Ascii.eqb "-" "-") with true. cbn iota.
    now rewrite digits_acc_tail.
Qed.

(** X7: text after the number of a [-d] argument is ignored, as long as
    it does not begin with a digit: [-d 5s] or [-d "12 seconds"] is
    treated exactly as [-d 5] or [-d 12], and [-d -5abc] ends the process
    like [-d -5]. *)
Theorem X7_delay_argument_tail_ignored (n : Z) (tail msg : string)
    (rest : list getopt_result) (p : process) :
  starts_with_digit tail = false ->
  process_opts ({| optc := "d"; optarg := dec n ++ tail; diagnostic := msg |} :: rest) p =
  process_opts ({| optc := "d"; optarg := dec n; diagnostic := msg |} :: rest) p.
Proof.
  intros Htail. rewrite !process_opts_known by reflexivity.
  unfold process_opt. cbn [optc optarg].
  now rewrite (atoi_tail n tail Htail).
Qed.

Lemma X7_witness :
  starts_with_digit " seconds" = false /\
  process_opts [ {| optc := "d"; optarg := "12 seconds"; diagnostic := "" |} ] (startup "scoreboard") =
  process_opts [ {| optc := "d"; optarg := "12"; diagnostic := "" |} ] (startup "scoreboard").
Proof.
  split; [reflexivity|].
  exact (X7_delay_argument_tail_ignored 12 " seconds" "" [] (startup "scoreboard")
           eq_refl).
Defined.

End MoreOptions.

(** * Further properties of a poll *)

Section MorePolls.

Context `{utils_h}.

(** X8: a poll that opens the scoreboard paints, after the title, the
    summary and the column header, one row for every entry that the display
    filter retains -- idle, downloading and uploading sessions when their
    bit is set, listing and authenticating sessions always -- in scoreboard
    order, without re-sorting; the row array holds these rows and
    [ftp_nsessions] is their number. *)
Theorem X8_poll_paints_retained_rows (env : poll_env) (p : process) :
  memory_ok env = true ->
  open_fails env = false ->
  Z.of_nat (length (entries env)) + chunklen <= 2 ^ 32 ->
  let shown := filter (fun s => retained (display_session p) (classify (sce_cmd s)) = true)
                      (entries env) in
  let rows := map (fun s => format_session (symbol (classify (sce_cmd s))) s) shown in
  exists q array,
    show_sessions env p = Ret tt q /\
    ftp_nsessions q = Z.of_nat (length rows) /\
    ftp_sessions q = Some array /\
    take (length rows) array = map Some rows /\
    log q = (log p ++ UtilCloseScoreboard ::
               frame (ctime_now env) (ftp_nsessions q) (ftp_ndownloads q)
                 (ftp_nuploads q) (ftp_nidles q) rows)%list.
Proof.
  intros Hmem Hopen Hbound shown rows.
  destruct (show_sessions_ok env p Hmem Hopen Hbound) as (array & Hshow & Htake).
  eexists _, array. split; [exact Hshow|]. repeat split. exact Htake.
Qed.

Lemma tally_partition (scores : list pr_scoreboard_entry_t) :
  tally Idle scores + tally Download scores + tally Upload scores
  + tally Listing scores + tally Authenticating scores
  = Z.of_nat (length scores).
Proof.
  induction scores as [|score rest IH]; [reflexivity|].
  rewrite !tally_cons. cbn [length].
  destruct (classify (sce_cmd score)); cbn [category_eqb]; lia.
Qed.

(** X9: after a poll that opens the scoreboard, the idle, download and
    upload counters hold the number of all entries of their category,
    whatever the display filter is; every entry falls in exactly one of
    the five categories, so the three counters together never exceed the
    number of entries, and neither does the row count. *)
Theorem X9_counters_tally_all_entries (env : poll_env) (p : process) :
  memory_ok env = true ->
  open_fails env = false ->
  Z.of_nat (length (entries env)) + chunklen <= 2 ^ 32 ->
  exists q,
    show_sessions env p = Ret tt q /\
    counters q = (tally Idle (entries env), tally Download (entries env),
                  tally Upload (entries env)) /\
    ftp_nidles q + ftp_ndownloads q + ftp_nuploads q
      + tally Listing (entries env) + tally Authenticating (entries env)
      = Z.of_nat (length (entries env)) /\
    0 <= ftp_nsessions q <= Z.of_nat (length (entries env)).
Proof.
  intros Hmem Hopen Hbound.
  destruct (show_sessions_ok env p Hmem Hopen Hbound) as (array & Hshow & _).
  eexists. split; [exact Hshow|]. cbn [counters ftp_nidles ftp_ndownloads
    ftp_nuploads ftp_nsessions]. split; [reflexivity|]. split.
  - apply tally_partition.
  - pose proof (retained_bound (display_session p) (entries env)). lia.
Qed.

Lemma retained_show_all (c : category) : retained FTPTOP_SHOW_ALL c = true.
Proof. now destruct c. Qed.

Lemma retained_entries_show_all (scores : list pr_scoreboard_entry_t) :
  retained_entries FTPTOP_SHOW_ALL scores = scores.
Proof.
  induction scores as [|score rest IH]; [reflexivity|].
  now rewrite retained_entries_cons, retained_show_all, IH.
Qed.

(** X10: with the default display filter ([FTPTOP_SHOW_ALL], as without
    any of [-D], [-I], [-i], [-U]) no entry is dropped: every entry of the
    scoreboard gets its row, in scoreboard order, and the total of the
    summary line is the number of entries. *)
Theorem X10_default_filter_shows_all (env : poll_env) (p : process) :
  memory_ok env = true ->
  open_fails env = false ->
  Z.of_nat (length (entries env)) + chunklen <= 2 ^ 32 ->
  display_session p = FTPTOP_SHOW_ALL ->
  let rows := map (fun s => format_session (symbol (classify (sce_cmd s))) s)
                  (entries env) in
  exists q,
    show_sessions env p = Ret tt q /\
    ftp_nsessions q = Z.of_nat (length (entries env)) /\
    log q = (log p ++ UtilCloseScoreboard ::
               frame (ctime_now env) (Z.of_nat (length (entries env)))
                 (tally Download (entries env)) (tally Upload (entries env))
                 (tally Idle (entries env)) rows)%list.
Proof.
  intros Hmem Hopen Hbound Hall rows.
  destruct (show_sessions_ok env p Hmem Hopen Hbound) as (array & Hshow & _).
  assert (retained_rows (display_session p) (entries env) = rows) as Hrows.
  { unfold retained_rows, rows. now rewrite Hall, retained_entries_show_all. }
  rewrite Hrows in Hshow.
  assert (length rows = length (entries env)) as Hlen
    by (unfold rows; now rewrite length_map).
  rewrite Hlen in Hshow.
  eexists. split; [exact Hshow|]. split; reflexivity.
Qed.

(** X11: a poll never reads or writes outside the row array, as long as
    the scoreboard holds at most 2^32 - 3 entries: with a cooperating
    allocator it returns, and when the allocator fails it ends the process
    with status 1 at the first [calloc], with nothing painted and nothing
    reported. *)
Theorem X11_poll_is_memory_safe (env : poll_env) (p : process) :
  Z.of_nat (length (entries env)) + chunklen <= 2 ^ 32 ->
  (forall q, show_sessions env p <> Fault q) /\
  (memory_ok env = true -> exists q, show_sessions env p = Ret tt q) /\
  (memory_ok env = false ->
   exists q, show_sessions env p = Exit 1 q /\ log q = log p).
Proof.
  intros Hbound.
  assert (memory_ok env = true -> exists q, show_sessions env p = Ret tt q) as Hok.
  { intros Hmem. destruct (open_fails env) eqn:Hopen.
    - eexists. apply (show_sessions_open_fails env p Hmem Hopen).
    - destruct (show_sessions_ok env p Hmem Hopen Hbound) as (array & Hshow & _).
      eexists. exact Hshow. }
  assert (memory_ok env = false ->
          exists q, show_sessions env p = Exit 1 q /\ log q = log p) as Hoom.
  { intros Hmem. unfold show_sessions.
    rewrite (bind_ret _ _ _ _ _ (clear_counters_spec p)).
    unfold read_scoreboard, calloc_array. rewrite Hmem. run.
    eexists. split; reflexivity. }
  split; [|split; assumption].
  intros q Hfault. destruct (memory_ok env).
  - destruct (Hok eq_refl) as [q' Hq']. congruence.
  - destruct (Hoom eq_refl) as (q' & Hq' & _). congruence.
Qed.

(** X12: [read_scoreboard], entered with a row count of 0 as
    [clear_counters] leaves it, grows the row array by whole chunks only
    when it is full: on return its length is the least multiple of
    [chunklen] that holds the stored rows (one chunk when there is none),
    and each of the first [ftp_nsessions] slots holds a row. *)
Theorem X12_row_array_capacity (env : poll_env) (p : process) :
  memory_ok env = true ->
  open_fails env = false ->
  Z.of_nat (length (entries env)) + chunklen <= 2 ^ 32 ->
  ftp_nsessions p = 0 ->
  counters_in_range p ->
  exists q array,
    read_scoreboard env p = Ret tt q /\
    ftp_sessions q = Some array /\
    Z.of_nat (length array) = capacity_for (ftp_nsessions q) /\
    0 <= ftp_nsessions q <= Z.of_nat (length array) /\
    Z.of_nat (length array) < Z.max 1 (ftp_nsessions q) + chunklen /\
    forall i, (i < Z.to_nat (ftp_nsessions q))%nat ->
              exists row, array !! i = Some (Some row).
Proof.
  intros Hmem Hopen Hbound Hzero Hrange.
  unfold read_scoreboard, calloc_array. rewrite Hmem. cbn [non_null].
  set (p1 := set_ftp_sessions (Some (replicate (Z.to_nat chunklen) None)) p).
  destruct (read_entries_spec env (entries env) Hmem p1 (replicate (Z.to_nat chunklen) None))
    as (array & Hloop & [Hn Hcap] & Htake).
  - reflexivity.
  - unfold p1. cbn [ftp_nsessions set_ftp_sessions]. rewrite Hzero.
    split; reflexivity.
  - exact Hrange.
  - unfold p1. cbn [ftp_nsessions set_ftp_sessions]. rewrite Hzero. lia.
  - run. fold p1. rewrite (scoreboard_open_ok env p1 Hopen).
    cbn [Z.ltb Z.compare]. rewrite Hloop. unfold scoreboard_close. run.
    eexists _, array. split; [reflexivity|].
    cbn [ftp_sessions ftp_nsessions set_log]. split; [reflexivity|].
    unfold capacity_for. split; [exact Hcap|].
    unfold chunklen in *. split; [|split].
    + split; [exact Hn|]. rewrite Hcap.
      Z.to_euclidean_division_equations. lia.
    + rewrite Hcap. Z.to_euclidean_division_equations. lia.
    + intros i Hi.
      assert (ftp_nsessions p1 = 0) as Hzero1 by exact Hzero.
      rewrite Hzero1 in Htake, Hi.
      change (take (Z.to_nat 0) (replicate (Z.to_nat chunklen) None))
        with (@nil (option string)) in Htake.
      rewrite app_nil_l in Htake.
      rewrite <- (lookup_take_lt array _ i Hi), Htake, list_lookup_fmap.
      destruct (retained_rows (display_session p1) (entries env) !! i)
        as [row|] eqn:Hrow; [now exists row|].
      apply lookup_ge_None in Hrow. exfalso.
      unfold retained_rows in Hrow. rewrite length_map in Hrow. lia.
Qed.

(** The loop over the entries uses its environment only to ask the
    allocator. *)
Lemma read_entries_memory (env env' : poll_env)
    (scores : list pr_scoreboard_entry_t) (p : process) :
  memory_ok env = memory_ok env' ->
  read_entries env scores p = read_entries env' scores p.
Proof.
  intros Hmem. revert p. induction scores as [|score rest IH]; intros p.
  - reflexivity.
  - assert (read_entry env score p = read_entry env' score p) as Hentry.
    { unfold read_entry, store_session, realloc_array, calloc_copy.
      now rewrite Hmem. }
    cbn [read_entries]. unfold mbind, M_bind. rewrite Hentry.
    destruct (read_entry env' score p); [apply IH|reflexivity..].
Qed.

(** X13: a negative value of [util_open_scoreboard] that is none of the
    four error codes is not taken for a failure: [scoreboard_open] returns
    0 without a diagnostic, and the poll goes on exactly as after a
    successful open. *)
Theorem X13_unknown_open_error_is_success (env : poll_env) (p : process) :
  open_res env < 0 ->
  ~ In (open_res env)
       [-1; UTIL_SCORE_ERR_BAD_MAGIC; UTIL_SCORE_ERR_OLDER_VERSION;
        UTIL_SCORE_ERR_NEWER_VERSION] ->
  scoreboard_open env p = Ret 0 p /\
  show_sessions env p = show_sessions (with_open_res 0 env) p.
Proof.
  intros Hneg Hkind.
  assert (open_fails env = false) as Hopen.
  { unfold open_fails. apply andb_false_iff. right.
    rewrite !orb_false_iff, !Z.eqb_neq. cbn [In] in Hkind.
    intuition congruence. }
  assert (open_fails (with_open_res 0 env) = false) as Hopen' by reflexivity.
  split; [now apply scoreboard_open_ok|].
  unfold show_sessions.
  rewrite !(bind_ret _ _ _ _ _ (clear_counters_spec p)).
  unfold read_scoreboard, calloc_array.
  change (memory_ok (with_open_res 0 env)) with (memory_ok env).
  change (entries (with_open_res 0 env)) with (entries env).
  change (ctime_now (with_open_res 0 env)) with (ctime_now env).
  destruct (memory_ok env); [|reflexivity]. cbn [non_null]. run.
  rewrite (scoreboard_open_ok env _ Hopen).
  rewrite (scoreboard_open_ok (with_open_res 0 env) _ Hopen').
  change (0 <? 0) with false. cbv beta iota.
  rewrite (read_entries_memory (with_open_res 0 env) env) by reflexivity.
  reflexivity.
Qed.

(** X14: whatever a poll meets and however it ends, it leaves the refresh
    delay, the display filter and the scoreboard path as they were, and
    it only adds to what the process has written so far. *)
Theorem X14_poll_keeps_configuration (env : poll_env) (p : process) :
  config (final (show_sessions env p)) = config p /\
  exists painted, log (final (show_sessions env p)) = (log p ++ painted)%list.
Proof.
  destruct (tame_show_sessions env) as [Hframe Hkeeps].
  split; [apply Hkeeps|].
  specialize (Hframe (set_log [] p) (log p)).
  cbn [log set_log] in Hframe. rewrite app_nil_r in Hframe.
  replace (set_log (log p) (set_log [] p)) with p in Hframe
    by (now destruct p).
  rewrite Hframe. exists (log (final (show_sessions env (set_log [] p)))).
  now destruct (show_sessions env (set_log [] p)).
Qed.

(** X15: the row kept for an entry never exceeds the 1023 characters
    that [buf] can hold besides its NUL: it is the row layout, cut there
    when the fields are too long. *)
Theorem X15_row_fits_buffer (status : string) (score : pr_scoreboard_entry_t) :
  in_int (sce_pid score) ->
  (String.length (format_session status score) <= 1023)%nat /\
  format_session status score = strtake 1023 (row_layout status score).
Proof.
  intros Hpid. rewrite (format_session_text status score Hpid).
  split; [apply strtake_length|reflexivity].
Qed.

(** The two keys that [tolower] maps to 'q'. *)
Lemma tolower_q (k : Z) : tolower k = char_q <-> quit_key k = true.
Proof.
  unfold tolower, quit_key, char_q. rewrite orb_true_iff, !Z.eqb_eq.
  destruct ((65 <=? k) && (k <=? 90)) eqn:Hupper.
  - apply andb_true_iff in Hupper as [Hlo Hhi].
    apply Z.leb_le in Hlo, Hhi. lia.
  - apply andb_false_iff in Hupper as [Hlo|Hhi];
      [apply Z.leb_gt in Hlo|apply Z.leb_gt in Hhi]; lia.
Qed.

(** X16: with a refresh delay of 1 to 25 seconds, a 'q' or 'Q' read
    during the wait ends the loop at once: [endwin] is called, the process
    exits with status 0, no further poll is made and no later turn runs. *)
Theorem X16_quit_key_ends_the_loop (turn : turn_env) (rest : list turn_env)
    (p : process) :
  1 <= delay p <= 25 ->
  quit_key (key turn) = true ->
  main_loop (turn :: rest) p =
    Exit 0 (set_log (log p ++ [Halfdelay (delay p * 10); Getch; Endwin]) p).
Proof.
  intros Hdelay Hkey. apply tolower_q in Hkey.
  cbn [main_loop]. unfold mbind, M_bind.
  now rewrite (quit_key_terminates turn p Hdelay Hkey).
Qed.

(** X17: no other key ends the program: whatever the refresh delay, a
    turn of the loop in which no 'q' or 'Q' arrives (another key, or none
    in time) calls neither [endwin] nor [exit] before it goes on to the
    next poll. *)
Theorem X17_other_keys_do_not_quit (turn : turn_env) (p : process) :
  quit_key (key turn) = false ->
  exists waited,
    ~ In Endwin waited /\
    main_loop_turn turn p =
      show_sessions (poll turn) (set_log (log p ++ waited) p).
Proof.
  intros Hkey. rewrite main_loop_turn_spec. cbv zeta.
  assert ((tolower (key turn) =? char_q) = false) as Hlower.
  { apply Z.eqb_neq. intros Hq. apply tolower_q in Hq. congruence. }
  rewrite Hlower, andb_false_r.
  destruct (negb (halfdelay_rc (to_int (delay p * 10)) =? ERR)).
  - eexists. split; [|reflexivity]. cbn [In]. intuition discriminate.
  - eexists. split; [|reflexivity]. cbn [In]. intuition discriminate.
Qed.

Lemma sprintf_stat (path reason : string) :
  sprintf ("%s: unable to stat '%s': %s" ++ newline)
    [VStr program; VStr path; VStr reason] = stat_diagnostic path reason.
Proof.
  unfold sprintf, stat_diagnostic.
  set (fmt := ("%s: unable to stat '%s': %s" ++ newline)%string).
  vm_compute in fmt. subst fmt.
  cbv - [pad precise String.append Nat.sub].
  unfold precise. rewrite !pad_right_0. reflexivity.
Qed.

(** X18: [main] checks the scoreboard path before it touches the
    terminal.  When [stat] fails, the process ends with status 1 and the
    diagnostic naming the path in force (the last [-f], else the default),
    without having installed a handler or initialised curses; otherwise
    the handlers are installed, the terminal is set up, and the first
    frame is painted before the loop waits for any key. *)
Theorem X18_main_checks_scoreboard_first (env : main_env) (p q : process) :
  process_opts (opts env) p = Ret tt q ->
  (stat_res env < 0 ->
   main env p =
     Exit 1 (set_log (log q ++ [Stderr (stat_diagnostic (scoreboard_file q)
                                          (stat_strerror env))]) q)) /\
  (0 <= stat_res env ->
   main env p =
     (show_sessions (first_poll env) ≫= fun _ => main_loop (turns env))
       (set_log (log q ++ startup_calls) q)).
Proof.
  intros Hopts. unfold main. rewrite (bind_ret _ _ _ _ _ Hopts).
  unfold verify_scoreboard_file, fprintf_stderr. split; intros Hstat.
  - apply Z.ltb_lt in Hstat. rewrite Hstat. run. now rewrite sprintf_stat.
  - apply Z.ltb_ge in Hstat. rewrite Hstat. unfold startup_calls. run.
    cbn [log set_log]. rewrite <- !app_assoc. reflexivity.
Qed.

(** X19: [-D], [-I] and [-U] hide the other two filterable categories
    only: after such an option a session is shown exactly when it is of
    the option's own category or of a category without a filter bit
    (listing, authenticating). *)
Theorem X19_exclusive_option_keeps_unfilterable (o : getopt_result)
    (p q : process) (bit : Z) :
  exclusive_filter (optc o) = Some bit ->
  process_opt o p = Ret tt q ->
  forall c, retained (display_session q) c = true <->
            (filter_bit c = Some bit \/ filter_bit c = None).
Proof.
  intros Hbit Hstep c.
  rewrite (process_opt_display o p q Hstep), Hbit.
  unfold exclusive_filter in Hbit.
  destruct (Ascii.eqb (optc o) "D");
    [injection Hbit as <-; destruct c; vm_compute; intuition congruence|].
  destruct (Ascii.eqb (optc o) "I");
    [injection Hbit as <-; destruct c; vm_compute; intuition congruence|].
  destruct (Ascii.eqb (optc o) "U");
    [injection Hbit as <-; destruct c; vm_compute; intuition congruence|].
  discriminate.
Qed.

(** X20: an empty scoreboard paints the frame of an unopenable one: a
    summary of zero sessions and no rows; only the diagnostic on stderr
    is missing. *)
Theorem X20_empty_scoreboard_frame (env : poll_env) (p : process) :
  memory_ok env = true ->
  open_fails env = false ->
  entries env = [] ->
  exists q,
    show_sessions env p = Ret tt q /\
    poll_state q = (0, (0, 0, 0), Some (replicate (Z.to_nat chunklen) None)) /\
    log q = (log p ++ UtilCloseScoreboard :: frame (ctime_now env) 0 0 0 0 [])%list.
Proof.
  intros Hmem Hopen Hempty. unfold show_sessions.
  rewrite (bind_ret _ _ _ _ _ (clear_counters_spec p)).
  assert (read_scoreboard env (cleared p) =
          Ret tt (set_log (log p ++ [UtilCloseScoreboard])
                    (set_ftp_sessions (Some (replicate (Z.to_nat chunklen) None))
                       (cleared p)))) as Hread.
  { unfold read_scoreboard, calloc_array. rewrite Hmem, Hempty.
    cbn [non_null]. run. rewrite (scoreboard_open_ok env _ Hopen).
    reflexivity. }
  rewrite (bind_ret _ _ _ _ _ Hread).
  unfold printw. run.
  cbn [ftp_nsessions ftp_ndownloads ftp_nuploads ftp_nidles ftp_sessions
       set_ftp_sessions cleared set_log log delay display_session
       scoreboard_file non_null andb is_zero Z.eqb negb].
  rewrite sprintf_title, sprintf_newline, sprintf_column_header.
  rewrite sprintf_summary by lia.
  eexists. split; [reflexivity|]. split; [reflexivity|].
  cbn [log]. unfold frame. cbn [map]. rewrite <- !app_assoc. reflexivity.
Qed.

End MorePolls.

Section MoreScenarios.
Import Scenario.

Local Existing Instance codes.

Lemma sample_bound :
  Z.of_nat (length (entries (poll_of 0 snapshot))) + chunklen <= 2 ^ 32.
Proof. apply Z.leb_le. reflexivity. Qed.

Lemma X8_witness :
  memory_ok (poll_of 0 snapshot) = true /\
  open_fails (poll_of 0 snapshot) = false /\
  Z.of_nat (length (entries (poll_of 0 snapshot))) + chunklen <= 2 ^ 32 /\
  let shown := filter (fun s => retained (display_session upload_only)
                                  (classify (sce_cmd s)) = true)
                      (entries (poll_of 0 snapshot)) in
  let rows := map (fun s => format_session (symbol (classify (sce_cmd s))) s) shown in
  exists q array,
    show_sessions (poll_of 0 snapshot) upload_only = Ret tt q /\
    ftp_nsessions q = Z.of_nat (length rows) /\
    ftp_sessions q = Some array /\
    take (length rows) array = map Some rows /\
    log q = (log upload_only ++ UtilCloseScoreboard ::
               frame (ctime_now (poll_of 0 snapshot)) (ftp_nsessions q)
                 (ftp_ndownloads q) (ftp_nuploads q) (ftp_nidles q) rows)%list.
Proof.
  split; [reflexivity|]. split; [reflexivity|]. split; [exact sample_bound|].
  exact (X8_poll_paints_retained_rows (poll_of 0 snapshot) upload_only
           eq_refl eq_refl sample_bound).
Defined.

Lemma X9_witness :
  memory_ok (poll_of 0 snapshot) = true /\
  open_fails (poll_of 0 snapshot) = false /\
  exists q,
    show_sessions (poll_of 0 snapshot) upload_only = Ret tt q /\
    counters q = (tally Idle snapshot, tally Download snapshot,
                  tally Upload snapshot) /\
    ftp_nidles q + ftp_ndownloads q + ftp_nuploads q
      + tally Listing snapshot + tally Authenticating snapshot
      = Z.of_nat (length snapshot) /\
    0 <= ftp_nsessions q <= Z.of_nat (length snapshot).
Proof.
  split; [reflexivity|]. split; [reflexivity|].
  exact (X9_counters_tally_all_entries (poll_of 0 snapshot) upload_only
           eq_refl eq_refl sample_bound).
Defined.

Lemma X10_witness :
  memory_ok (poll_of 0 snapshot) = true /\
  open_fails (poll_of 0 snapshot) = false /\
  display_session at_startup = FTPTOP_SHOW_ALL /\
  let rows := map (fun s => format_session (symbol (classify (sce_cmd s))) s)
                  snapshot in
  exists q,
    show_sessions (poll_of 0 snapshot) at_startup = Ret tt q /\
    ftp_nsessions q = Z.of_nat (length snapshot) /\
    log q = (log at_startup ++ UtilCloseScoreboard ::
               frame (ctime_now (poll_of 0 snapshot)) (Z.of_nat (length snapshot))
                 (tally Download snapshot) (tally Upload snapshot)
                 (tally Idle snapshot) rows)%list.
Proof.
  split; [reflexivity|]. split; [reflexivity|]. split; [reflexivity|].
  exact (X10_default_filter_shows_all (poll_of 0 snapshot) at_startup
           eq_refl eq_refl sample_bound eq_refl).
Defined.

Lemma X11_witness :
  Z.of_nat (length (entries (poll_of 0 snapshot))) + chunklen <= 2 ^ 32 /\
  (forall q, show_sessions (poll_of 0 snapshot) at_startup <> Fault q) /\
  (memory_ok (poll_of 0 snapshot) = true ->
   exists q, show_sessions (poll_of 0 snapshot) at_startup = Ret tt q) /\
  (memory_ok (poll_of 0 snapshot) = false ->
   exists q, show_sessions (poll_of 0 snapshot) at_startup = Exit 1 q
             /\ log q = log at_startup).
Proof.
  split; [exact sample_bound|].
  exact (X11_poll_is_memory_safe (poll_of 0 snapshot) at_startup sample_bound).
Defined.

Lemma X12_witness :
  memory_ok (poll_of 0 snapshot) = true /\
  open_fails (poll_of 0 snapshot) = false /\
  ftp_nsessions (cleared at_startup) = 0 /\
  counters_in_range (cleared at_startup) /\
  exists q array,
    read_scoreboard (poll_of 0 snapshot) (cleared at_startup) = Ret tt q /\
    ftp_sessions q = Some array /\
    Z.of_nat (length array) = capacity_for (ftp_nsessions q) /\
    0 <= ftp_nsessions q <= Z.of_nat (length array) /\
    Z.of_nat (length array) < Z.max 1 (ftp_nsessions q) + chunklen /\
    forall i, (i < Z.to_nat (ftp_nsessions q))%nat ->
              exists row, array !! i = Some (Some row).
Proof.
  assert (counters_in_range (cleared at_startup)) as Hrange.
  { unfold counters_in_range.
    change (ftp_nuploads (cleared at_startup)) with 0.
    change (ftp_ndownloads (cleared at_startup)) with 0.
    change (ftp_nidles (cleared at_startup)) with 0. lia. }
  split; [reflexivity|]. split; [reflexivity|]. split; [reflexivity|].
  split; [exact Hrange|].
  exact (X12_row_array_capacity (poll_of 0 snapshot) (cleared at_startup)
           eq_refl eq_refl sample_bound eq_refl Hrange).
Defined.

Lemma X13_witness :
  open_res (poll_of (-9) snapshot) < 0 /\
  ~ In (open_res (poll_of (-9) snapshot))
       [-1; UTIL_SCORE_ERR_BAD_MAGIC; UTIL_SCORE_ERR_OLDER_VERSION;
        UTIL_SCORE_ERR_NEWER_VERSION] /\
  scoreboard_open (poll_of (-9) snapshot) at_startup = Ret 0 at_startup /\
  show_sessions (poll_of (-9) snapshot) at_startup =
    show_sessions (with_open_res 0 (poll_of (-9) snapshot)) at_startup.
Proof.
  assert (open_res (poll_of (-9) snapshot) < 0) as Hneg by reflexivity.
  assert (~ In (open_res (poll_of (-9) snapshot))
            [-1; UTIL_SCORE_ERR_BAD_MAGIC; UTIL_SCORE_ERR_OLDER_VERSION;
             UTIL_SCORE_ERR_NEWER_VERSION]) as Hkind
    by (cbn; intuition discriminate).
  split; [exact Hneg|]. split; [exact Hkind|].
  exact (X13_unknown_open_error_is_success (poll_of (-9) snapshot) at_startup
           Hneg Hkind).
Defined.

Lemma X15_witness :
  in_int (sce_pid (session 103 "STOR notes.txt")) /\
  (String.length (format_session "U" (session 103 "STOR notes.txt")) <= 1023)%nat /\
  format_session "U" (session 103 "STOR notes.txt") =
    strtake 1023 (row_layout "U" (session 103 "STOR notes.txt")).
Proof.
  assert (in_int 103) as Hpid by (unfold in_int, INT_MIN, INT_MAX; lia).
  split; [exact Hpid|].
  exact (X15_row_fits_buffer "U" (session 103 "STOR notes.txt") Hpid).
Defined.

Lemma X16_witness :
  1 <= delay at_startup <= 25 /\
  quit_key 81 = true /\
  main_loop [ {| key := 81; poll := poll_of 0 snapshot |};
              {| key := ERR; poll := poll_of 0 snapshot |} ] at_startup =
    Exit 0 (set_log (log at_startup ++ [Halfdelay (delay at_startup * 10); Getch; Endwin])
              at_startup).
Proof.
  assert (1 <= 2 <= 25) as Hdelay by lia.
  split; [exact Hdelay|]. split; [reflexivity|].
  exact (X16_quit_key_ends_the_loop {| key := 81; poll := poll_of 0 snapshot |}
           [ {| key := ERR; poll := poll_of 0 snapshot |} ] at_startup
           Hdelay eq_refl).
Defined.

Lemma X17_witness :
  quit_key 32 = false /\
  exists waited,
    ~ In Endwin waited /\
    main_loop_turn {| key := 32; poll := poll_of 0 snapshot |} at_startup =
      show_sessions (poll_of 0 snapshot)
        (set_log (log at_startup ++ waited) at_startup).
Proof.
  split; [reflexivity|].
  exact (X17_other_keys_do_not_quit {| key := 32; poll := poll_of 0 snapshot |}
           at_startup eq_refl).
Defined.

Lemma X18_witness :
  let env := {| opts := [option_ "f" "/tmp/scoreboard"]; stat_res := -1;
                stat_strerror := "No such file or directory";
                first_poll := poll_of 0 snapshot; turns := [] |} in
  let q := set_scoreboard_file "/tmp/scoreboard" at_startup in
  process_opts (opts env) at_startup = Ret tt q /\
  stat_res env < 0 /\
  main env at_startup =
    Exit 1 (set_log (log q ++ [Stderr (stat_diagnostic "/tmp/scoreboard"
                                         "No such file or directory")]) q).
Proof.
  intros env q.
  assert (process_opts (opts env) at_startup = Ret tt q) as Hopts by reflexivity.
  assert (stat_res env < 0) as Hstat by reflexivity.
  split; [exact Hopts|]. split; [exact Hstat|].
  exact (proj1 (X18_main_checks_scoreboard_first env at_startup q Hopts) Hstat).
Defined.

Lemma X19_witness :
  exclusive_filter "D" = Some FTPTOP_SHOW_DOWNLOAD /\
  process_opt (option_ "D" "") at_startup =
    Ret tt (set_display_session FTPTOP_SHOW_DOWNLOAD at_startup) /\
  forall c, retained FTPTOP_SHOW_DOWNLOAD c = true <->
            (filter_bit c = Some FTPTOP_SHOW_DOWNLOAD \/ filter_bit c = None).
Proof.
  split; [reflexivity|]. split; [reflexivity|].
  exact (X19_exclusive_option_keeps_unfilterable (option_ "D" "") at_startup
           (set_display_session FTPTOP_SHOW_DOWNLOAD at_startup)
           FTPTOP_SHOW_DOWNLOAD eq_refl eq_refl).
Defined.

Lemma X20_witness :
  memory_ok (poll_of 0 []) = true /\
  open_fails (poll_of 0 []) = false /\
  entries (poll_of 0 []) = [] /\
  exists q,
    show_sessions (poll_of 0 []) at_startup = Ret tt q /\
    poll_state q = (0, (0, 0, 0), Some (replicate (Z.to_nat chunklen) None)) /\
    log q = (log at_startup ++ UtilCloseScoreboard
               :: frame (ctime_now (poll_of 0 [])) 0 0 0 0 [])%list.
Proof.
  split; [reflexivity|]. split; [reflexivity|]. split; [reflexivity|].
  exact (X20_empty_scoreboard_frame (poll_of 0 []) at_startup
           eq_refl eq_refl eq_refl).
Defined.

End MoreScenarios.
